(** * MealPrep: the rule-filtering engine and ingredient quantities

    A shallow embedding of [archive/rules.py] and of the constructors of
    [src/ingredient.py], followed by the properties of the rule catalog.

    Conventions of the embedding:
    - a [datetime.date] is its proleptic Gregorian ordinal (a [Z]), as
      returned by [date.toordinal()];
    - a Python exception is [None] in the option monad for the rules (they
      can only fail inside a metadata lookup) and an explicit [Raise] for
      the constructors of [ingredient.py];
    - a meal dictionary (an insertion-ordered Python [dict]) is the list of
      its items in iteration order; a dictionary comprehension keeps that
      order;
    - the combined history is a finite map from dates to meal names. *)

From stdpp Require Import gmap strings list fin_maps option.
From stdpp Require sorting.

Local Open Scope Z_scope.

(** ** Dates *)

Abbreviation date := Z (only parsing).

(** The calendar arithmetic of CPython's [datetime] module, used to write
    dates as year, month and day. *)
Definition is_leap (year : Z) : bool :=
  (year mod 4 =? 0) && (negb (year mod 100 =? 0) || (year mod 400 =? 0)).

Definition days_before_year (year : Z) : Z :=
  let y := year - 1 in y * 365 + y / 4 - y / 100 + y / 400.

Definition days_before_month (year month : Z) : Z :=
  nth (Z.to_nat month)
      [0; 0; 31; 59; 90; 120; 151; 181; 212; 243; 273; 304; 334] 0
  + (if (2 <? month) && is_leap year then 1 else 0).

Definition ymd2ord (year month day : Z) : date :=
  days_before_year year + days_before_month year month + day.

(** [date.weekday()]: Monday is 0 and Sunday is 6. *)
Definition weekday (d : date) : Z := (d + 6) mod 7.

(** ** Meals, candidates and history *)

(** The metadata the rules consult about a meal. *)
Record meal_info := MealInfo {
  protein : option string;
  favourite : bool;
  fish : bool;
  pasta : bool;
  roast : bool;
  time_consuming : bool
}.

#[global] Instance meal_info_eq_dec : EqDecision meal_info.
Proof. solve_decision. Defined.

(** A meal dictionary [Dict[str, Dict]]: meal name to meal metadata. *)
Abbreviation meals_dict := (list (string * meal_info)) (only parsing).

(** The combined history [Dict[dt.date, Meal]]; a meal is identified by
    its name. *)
Abbreviation history := (gmap Z string) (only parsing).

(** The accessors imported from [mealprep.src.utils.meals]. Their bodies
    are not part of the sources at hand, so the rules are parametric in
    them. An accessor applied to a meal name either returns ([Some]) or
    raises ([None]). *)
Class MealUtils := {
  get_protein : string → option (option string);
  is_favourite : string → option bool;
  is_fish : string → option bool;
  is_pasta : string → option bool;
  is_roast : string → option bool;
  is_time_consuming : string → option bool
}.

(** Modelled from the spec: the accessors of [mealprep.src.utils.meals],
    which are missing from the sources. The metadata catalog is a read-only
    lookup table from meal name to attributes, and an attribute lookup on a
    meal name that is not in the catalog fails loudly. *)
Definition catalog_utils (catalog : gmap string meal_info) : MealUtils := {|
  get_protein name := protein <$> catalog !! name;
  is_favourite name := favourite <$> catalog !! name;
  is_fish name := fish <$> catalog !! name;
  is_pasta name := pasta <$> catalog !! name;
  is_roast name := roast <$> catalog !! name;
  is_time_consuming name := time_consuming <$> catalog !! name
|}.

(** Modelled from the spec: [get_close_history_meal_names] of
    [mealprep.src.utils.history], which is missing from the sources. It
    returns the set of the names of the meals whose history date lies
    within [n_days] (inclusive) of [date], before or after it. It has no
    side effect and never fails; the set is empty when no entry falls in
    the window. *)
Definition get_close_history_meal_names
    (combined_history : history) (date : date) (n_days : Z) : gset string :=
  map_img (filter (λ entry, Z.abs (entry.1 - date) ≤ n_days) combined_history).

(** The history has the meal [name] within [n_days] of [date]. *)
Definition eaten_within
    (combined_history : history) (date : date) (n_days : Z) (name : string)
    : Prop :=
  ∃ d', Z.abs (d' - date) ≤ n_days ∧ combined_history !! d' = Some name.

(** No history entry lies within [n_days] of [date]. *)
Definition no_entry_within
    (combined_history : history) (date : date) (n_days : Z) : Prop :=
  ∀ d', Z.abs (d' - date) ≤ n_days → combined_history !! d' = None.

(** ** Dictionary comprehensions *)

(** [{name: meal_info for name, meal_info in meals.items() if keep(name)}]:
    the condition is evaluated on every item, in order, and the first
    exception aborts the comprehension. *)
Fixpoint dict_comprehension (keep : string → option bool) (meals : meals_dict)
    : option meals_dict :=
  match meals with
  | [] => Some []
  | (name, info) :: rest =>
      b ← keep name;
      rest' ← dict_comprehension keep rest;
      Some (if b : bool then (name, info) :: rest' else rest')
  end.

(** The items a comprehension keeps: those on which the condition returns
    [True]. *)
Definition kept (keep : string → option bool) : string * meal_info → Prop :=
  λ item, keep item.1 = Some true.

#[global] Instance kept_dec keep item : Decision (kept keep item).
Proof. unfold kept. apply _. Defined.

(** The condition of the comprehension returns on every item. *)
Definition defined_on (keep : string → option bool) (meals : meals_dict)
    : Prop :=
  Forall (λ item, is_Some (keep item.1)) meals.

(** [any(flags)] on a list of booleans. *)
Definition any (flags : list bool) : bool := existsb id flags.

(** ** The rules of [archive/rules.py] *)

Abbreviation rule := (meals_dict → date → history → option meals_dict)
  (only parsing).

Section Rules.
Context `{MealUtils}.

Definition not_consecutive_same_protein
    (meals : meals_dict) (date : date) (combined_history : history)
    : option meals_dict :=
  let relevant_meal_names :=
    get_close_history_meal_names combined_history date 1 in
  proteins ← mapM get_protein (elements relevant_meal_names);
  let proteins_to_avoid := filter (λ p, p ≠ None) proteins in
  dict_comprehension
    (λ name, p ← get_protein name;
             Some (bool_decide (p ∉ proteins_to_avoid)))
    meals.

Definition not_within_seven_days
    (meals : meals_dict) (date : date) (combined_history : history)
    : option meals_dict :=
  let relevant_meal_names :=
    get_close_history_meal_names combined_history date 7 in
  dict_comprehension
    (λ name, Some (bool_decide (name ∉ relevant_meal_names)))
    meals.

Definition not_non_favourite_within_fourteen_days
    (meals : meals_dict) (date : date) (combined_history : history)
    : option meals_dict :=
  let relevant_meal_names :=
    get_close_history_meal_names combined_history date 14 in
  dict_comprehension
    (λ name, fav ← is_favourite name;
             Some (fav || bool_decide (name ∉ relevant_meal_names)))
    meals.

Definition not_pasta_within_five_days
    (meals : meals_dict) (date : date) (combined_history : history)
    : option meals_dict :=
  let relevant_meal_names :=
    get_close_history_meal_names combined_history date 5 in
  flags ← mapM is_pasta (elements relevant_meal_names);
  if any flags
  then dict_comprehension (λ name, negb <$> is_pasta name) meals
  else Some meals.

Definition force_sunday_roast
    (meals : meals_dict) (date : date) (combined_history : history)
    : option meals_dict :=
  if bool_decide (weekday date ≠ 6) then Some meals
  else dict_comprehension is_roast meals.

Definition not_roast_on_non_sunday
    (meals : meals_dict) (date : date) (combined_history : history)
    : option meals_dict :=
  if bool_decide (weekday date = 6) then Some meals
  else dict_comprehension (λ name, negb <$> is_roast name) meals.

Definition not_fish_within_seven_days
    (meals : meals_dict) (date : date) (combined_history : history)
    : option meals_dict :=
  let relevant_meal_names :=
    get_close_history_meal_names combined_history date 7 in
  flags ← mapM is_fish (elements relevant_meal_names);
  if any flags
  then dict_comprehension (λ name, negb <$> is_fish name) meals
  else Some meals.

Definition not_time_consuming_on_weekend
    (meals : meals_dict) (date : date) (combined_history : history)
    : option meals_dict :=
  if bool_decide (weekday date ∉ [5; 6]) then Some meals
  else dict_comprehension (λ name, negb <$> is_time_consuming name) meals.

Definition not_lasagne_and_moussaka_within_seven_days
    (meals : meals_dict) (date : date) (combined_history : history)
    : option meals_dict :=
  let relevant_meal_names :=
    get_close_history_meal_names combined_history date 7 in
  meals ←
    (if bool_decide ("Moussaka" ∈ relevant_meal_names)
     then dict_comprehension
            (λ name, Some (bool_decide (name ≠ "Lasagne"))) meals
     else Some meals);
  meals ←
    (if bool_decide ("Lasagne" ∈ relevant_meal_names)
     then dict_comprehension
            (λ name, Some (bool_decide (name ≠ "Moussaka"))) meals
     else Some meals);
  Some meals.

(** The rule catalog, in the order of the module. *)
Definition rule_catalog : list rule :=
  [ not_consecutive_same_protein;
    not_within_seven_days;
    not_non_favourite_within_fourteen_days;
    not_pasta_within_five_days;
    force_sunday_roast;
    not_roast_on_non_sunday;
    not_fish_within_seven_days;
    not_time_consuming_on_weekend;
    not_lasagne_and_moussaka_within_seven_days ].

(** The rules that consult the history window. *)
Definition history_window_rules : list rule :=
  [ not_consecutive_same_protein;
    not_within_seven_days;
    not_non_favourite_within_fourteen_days;
    not_pasta_within_five_days;
    not_fish_within_seven_days;
    not_lasagne_and_moussaka_within_seven_days ].

(** The rules that only look at the day of the week. *)
Definition weekday_only_rules : list rule :=
  [ force_sunday_roast;
    not_roast_on_non_sunday;
    not_time_consuming_on_weekend ].

(** The history has a meal of protein category [p] within [n_days] of
    [date]. *)
Definition protein_eaten_within
    (combined_history : history) (date : date) (n_days : Z) (p : string)
    : Prop :=
  ∃ d' eaten, Z.abs (d' - date) ≤ n_days
              ∧ combined_history !! d' = Some eaten
              ∧ get_protein eaten = Some (Some p).

(** A meal name has catalog metadata when every accessor returns on it. *)
Definition has_metadata (name : string) : Prop :=
  is_Some (get_protein name) ∧ is_Some (is_favourite name)
  ∧ is_Some (is_fish name) ∧ is_Some (is_pasta name)
  ∧ is_Some (is_roast name) ∧ is_Some (is_time_consuming name).

Definition candidates_have_metadata (meals : meals_dict) : Prop :=
  Forall (λ item, has_metadata item.1) meals.

(** Every history meal within [n_days] of [date] has catalog metadata. *)
Definition window_has_metadata
    (combined_history : history) (date : date) (n_days : Z) : Prop :=
  ∀ name, name ∈ get_close_history_meal_names combined_history date n_days →
          has_metadata name.

(** The combined history is a [Dict[dt.date, Meal]]: each of its values is
    a meal, and a meal has catalog metadata. *)
Definition history_of_meals (combined_history : history) : Prop :=
  ∀ d name, combined_history !! d = Some name → has_metadata name.
End Rules.

(** The key set of a meal dictionary. *)
Definition keys (meals : meals_dict) : list string := meals.*1.

(** Modelled from the spec: the pipeline, which is missing from the
    sources. It threads the narrowing candidate set through the rules, in
    order, passing the date and the history unchanged to each of them, and
    does no filtering of its own. *)
Fixpoint apply_rules (rules : list rule)
    (meals : meals_dict) (date : date) (combined_history : history)
    : option meals_dict :=
  match rules with
  | [] => Some meals
  | r :: rest =>
      meals' ← r meals date combined_history;
      apply_rules rest meals' date combined_history
  end.

(** ** [src/ingredient.py] *)

Module Ingredient.

(** The members of the [Category] enum that the module refers to; the
    enum itself is declared in [mealprep.src.constants]. *)
Inductive Category :=
  | VEGETABLE | HERB | MEAT | CONDIMENT | SPICE | CAN | DAIRY | SAUCE
  | FRUIT | CARBOHYDRATE.

(** The members of the [Ingredients] enum. *)
Inductive Ingredients :=
  | BABY_SPINACH | BAY_LEAVES | BEEF_MINCE | BROWN_SUGAR | CARROT
  | CASTER_SUGAR | CAYENNE_PEPPER | CELERY | CHERRY_TOMATO
  | CHICKEN_BREAST | CHICKEN_STOCK | CHICKEN_THIGH | CHOPPED_TOMATO
  | CORIANDER | CREAM | DARK_SOY_SAUCE | FRESH_CHILLI | FLOUR
  | GARLIC_CLOVE | GINGER | GUINNESS | HONEY | KIDNEY_BEAN
  | LEMONGRASS_PASTE | MIXED_HERBS | MOZARELLA_CHEESE | OLIVE_OIL | ONION
  | OREGANO | PAPRIKA | PARMESAN_CHEESE | PEAR | PENNE_PASTA
  | PORK_BELLY_SLICE | PORK_MINCE | POTATO | RED_CHILLI | RED_ONION
  | RED_PEPPER | RICE | RICE_WINE | SPAGHETTI | STEWING_BEEF
  | SUNDRIED_TOMATOES | TOMATO_PUREE | TORTILLA_WRAP | VEGETABLE_OIL
  | YELLOW_PEPPER.

Inductive exn := TypeError (msg : string).

Inductive result (A : Type) :=
  | Return (a : A)
  | Raise (e : exn).
Arguments Return {A} a.
Arguments Raise {A} e.

Section Objects.
(** The [Unit] enum of [mealprep.src.constants]; no member of it is
    named in the module. *)
Context {Unit : Type}.

(** The Python objects the constructors can be handed. An attribute
    of an object is again an object. *)
Inductive value :=
  | VNone
  | VStr (s : string)
  | VInt (z : Z)
  | VCategory (c : Category)
  | VUnit (u : Unit)
  | VIngredient (name category : value)
  | VIngredients (member : Ingredients)
  | VOther (class_name : string).

Definition isinstance_str (v : value) : bool :=
  match v with VStr _ => true | _ => false end.
Definition isinstance_Category (v : value) : bool :=
  match v with VCategory _ => true | _ => false end.
Definition isinstance_Unit (v : value) : bool :=
  match v with VUnit _ => true | _ => false end.
Definition isinstance_Ingredient (v : value) : bool :=
  match v with VIngredient _ _ => true | _ => false end.
Definition isinstance_Ingredients (v : value) : bool :=
  match v with VIngredients _ => true | _ => false end.

(** [Ingredient.__init__] *)
Definition Ingredient_init (name category : value) : result value :=
  if negb (isinstance_str name) then
    Raise (TypeError "'name' argument must be a string in Ingredient init")
  else if negb (isinstance_Category category) then
    Raise (TypeError
      "'category' argument must be a Category in Ingredient init")
  else Return (VIngredient name category).

(** The value of each member of [Ingredients]. *)
Definition Ingredients_value (member : Ingredients) : result value :=
  let mk name category := Ingredient_init (VStr name) (VCategory category) in
  match member with
  | BABY_SPINACH => mk "Baby Spinach" VEGETABLE
  | BAY_LEAVES => mk "Bay Leaves" HERB
  | BEEF_MINCE => mk "Beef Mince" MEAT
  | BROWN_SUGAR => mk "Brown Sugar" CONDIMENT
  | CARROT => mk "Carrot" VEGETABLE
  | CASTER_SUGAR => mk "Caster Sugar" CONDIMENT
  | CAYENNE_PEPPER => mk "Cayenne Pepper" SPICE
  | CELERY => mk "Celery" VEGETABLE
  | CHERRY_TOMATO => mk "Cherry Tomato" VEGETABLE
  | CHICKEN_BREAST => mk "Chicken Breast" MEAT
  | CHICKEN_STOCK => mk "Chicken Stock" CONDIMENT
  | CHICKEN_THIGH => mk "Chicken Thigh" MEAT
  | CHOPPED_TOMATO => mk "Chopped Tomato" CAN
  | CORIANDER => mk "Coriander" HERB
  | CREAM => mk "Cream" DAIRY
  | DARK_SOY_SAUCE => mk "Dark Soy Sauce" SAUCE
  | FRESH_CHILLI => mk "Fresh Chilli" VEGETABLE
  | FLOUR => mk "Flour" CONDIMENT
  | GARLIC_CLOVE => mk "Garlic Clove" VEGETABLE
  | GINGER => mk "Ginger" VEGETABLE
  | GUINNESS => mk "Guinness" SAUCE
  | HONEY => mk "Honey" CONDIMENT
  | KIDNEY_BEAN => mk "Kidney Bean" CAN
  | LEMONGRASS_PASTE => mk "Lemongrass Paste" CONDIMENT
  | MIXED_HERBS => mk "Mixed Herbs" HERB
  | MOZARELLA_CHEESE => mk "Mozarella Cheese" DAIRY
  | OLIVE_OIL => mk "Olive Oil" CONDIMENT
  | ONION => mk "Onion" VEGETABLE
  | OREGANO => mk "Oregano" HERB
  | PAPRIKA => mk "Paprika" SPICE
  | PARMESAN_CHEESE => mk "Parmesan Cheese" DAIRY
  | PEAR => mk "Pear" FRUIT
  | PENNE_PASTA => mk "Penne Pasta" CARBOHYDRATE
  | PORK_BELLY_SLICE => mk "Pork Belly Slice" MEAT
  | PORK_MINCE => mk "Pork Mince" MEAT
  | POTATO => mk "Potato" VEGETABLE
  | RED_CHILLI => mk "Red Chilli" VEGETABLE
  | RED_ONION => mk "Red Onion" VEGETABLE
  | RED_PEPPER => mk "Red Pepper" VEGETABLE
  | RICE => mk "Rice" CARBOHYDRATE
  | RICE_WINE => mk "Rice Wine" SAUCE
  | SPAGHETTI => mk "Spaghetti" CARBOHYDRATE
  | STEWING_BEEF => mk "Stewing Beef" MEAT
  | SUNDRIED_TOMATOES => mk "Sundried Tomatoes" CAN
  | TOMATO_PUREE => mk "Tomato Puree" CONDIMENT
  | TORTILLA_WRAP => mk "Tortilla Wrap" CARBOHYDRATE
  | VEGETABLE_OIL => mk "Vegetable Oil" CONDIMENT
  | YELLOW_PEPPER => mk "Yellow Pepper" VEGETABLE
  end.

(** An [IngredientQuantity] object and its three attributes. *)
Record IngredientQuantity := {
  ingredient : value;
  unit : value;
  quantity : value
}.

(** [IngredientQuantity.__init__] *)
Definition IngredientQuantity_init (ingredient unit quantity : value)
    : result IngredientQuantity :=
  if negb (isinstance_Ingredients ingredient) then
    Raise (TypeError
      "'ingredient' argument must be in the Ingredients enum in IngredientQuantity init")
  else if negb (isinstance_Unit unit) then
    Raise (TypeError
      "'unit' argument must be a Unit in IngredientQuantity init")
  else
    Return {| ingredient := ingredient; unit := unit;
              quantity := quantity |}.
End Objects.
Arguments value : clear implicits.
Arguments IngredientQuantity : clear implicits.

End Ingredient.

(** A function on meal dictionaries narrows when it either raises whatever
    the candidates are, or is a dictionary comprehension whose condition
    does not depend on the candidates. *)
Definition narrows (f : meals_dict → option meals_dict) : Prop :=
  (∀ meals, f meals = None)
  ∨ ∃ keep, ∀ meals, f meals = dict_comprehension keep meals.

(** It narrows on [dom] when, moreover, the condition of the comprehension
    returns on every name of [dom]. *)
Definition narrows_on (dom : string → Prop)
    (f : meals_dict → option meals_dict) : Prop :=
  (∀ meals, f meals = None)
  ∨ ∃ keep, (∀ name, dom name → is_Some (keep name))
            ∧ ∀ meals, f meals = dict_comprehension keep meals.

(** ** [IngredientQuantityCollection] of [src/ingredient.py] *)

Module Collection.
Import Ingredient.

Section Objects.
Context {Unit : Type}.

(** What an iterable handed to the constructor can yield: an
    [IngredientQuantity] object or any other object. *)
Inductive element :=
  | EQuantity (q : IngredientQuantity Unit)
  | EValue (v : value Unit).

Definition isinstance_IngredientQuantity (x : element) : bool :=
  match x with EQuantity _ => true | EValue _ => false end.

(** [f"{x}"]: how an object prints depends on classes that are declared
    elsewhere, so it is a parameter. *)
Context (format : element → string).

(** The loop over the tuple: the first element that is not an
    [IngredientQuantity] raises. *)
Fixpoint check_elements (xs : list element) : result () :=
  match xs with
  | [] => Return ()
  | x :: rest =>
      if negb (isinstance_IngredientQuantity x) then
        Raise (TypeError
          (format x +:+
           " is not an IngredientQuantity in IngredientQuantityCollection init"))
      else check_elements rest
  end.

Record IngredientQuantityCollection := {
  ingredient_quantities : list element
}.

(** [IngredientQuantityCollection.__init__]; the iterable argument is the
    list of what it yields. *)
Definition IngredientQuantityCollection_init (iterable : list element)
    : result IngredientQuantityCollection :=
  let self := {| ingredient_quantities := iterable |} in
  match check_elements (ingredient_quantities self) with
  | Return _ => Return self
  | Raise e => Raise e
  end.
End Objects.
Arguments element : clear implicits.
Arguments IngredientQuantityCollection : clear implicits.

End Collection.

(** ** [applications/remove_dates_from_diary.py]: the printed window *)

Module RemoveDates.

Definition MAX_PRINTED_PREVIOUS_DIARY_ENTRIES : Z := 15.
Definition MAX_PRINTED_NEXT_DIARY_ENTRIES : Z := 5.

(** [l[i]] on a Python list: a negative index counts from the end, and an
    index out of range raises [IndexError] ([None]). *)
Definition getitem {A} (l : list A) (i : Z) : option A :=
  let len := Z.of_nat (length l) in
  if bool_decide (0 ≤ i) then l !! Z.to_nat i
  else if bool_decide (- i ≤ len) then l !! Z.to_nat (len + i)
  else None.

(** [sorted] on dates. *)
Definition sorted (l : list Z) : list Z := sorting.merge_sort Z.le l.

Section Window.
(** [meal_diary.dates] and [dt.date.today()]. *)
Context (dates : list Z) (today : Z).

Definition previous_dates : list Z :=
  sorted (filter (λ x, x < today) dates).

Definition n_previous_dates_printed : Z :=
  Z.min (Z.of_nat (length previous_dates)) MAX_PRINTED_PREVIOUS_DIARY_ENTRIES.

(** [None] is [IndexError]. *)
Definition min_printed_date : option Z :=
  getitem previous_dates (- (n_previous_dates_printed - 1)).

Definition next_dates : list Z :=
  sorted (filter (λ x, today ≤ x) dates).

Definition n_next_dates_printed : Z :=
  Z.min (Z.of_nat (length next_dates)) MAX_PRINTED_NEXT_DIARY_ENTRIES.

(** The outer [None] is [IndexError]; the inner one is Python's [None]. *)
Definition max_printed_date : option (option Z) :=
  match next_dates with
  | _ :: _ => Some <$> getitem next_dates (n_next_dates_printed - 1)
  | [] => Some None
  end.

(** The two bounds handed to [meal_diary.filter_dates], or [None] when
    computing them raises. *)
Definition printed_window : option (Z * option Z) :=
  min_date ← min_printed_date;
  max_date ← max_printed_date;
  Some (min_date, max_date).
End Window.

End RemoveDates.

(** ** Scenarios *)

Module Scenario.

Definition meal (protein : option string)
    (favourite fish pasta roast time_consuming : bool) : meal_info :=
  MealInfo protein favourite fish pasta roast time_consuming.

Definition chicken_curry := meal (Some "chicken") true false false false false.
Definition chicken_fajitas := meal (Some "chicken") false false false false false.
Definition beef_chilli := meal (Some "beef") false false false false false.
Definition lasagne := meal (Some "beef") false false true false true.
Definition moussaka := meal (Some "lamb") false false false false true.
Definition roast_chicken := meal (Some "chicken") false false false true true.
Definition stir_fry := meal None false false false false false.
Definition fish_pie := meal (Some "fish") false true false false false.

(** A small metadata catalog. *)
Definition catalog : gmap string meal_info :=
  list_to_map
    [ ("Chicken Curry", chicken_curry); ("Chicken Fajitas", chicken_fajitas);
      ("Beef Chilli", beef_chilli); ("Lasagne", lasagne);
      ("Moussaka", moussaka); ("Roast Chicken", roast_chicken);
      ("Stir Fry", stir_fry); ("Fish Pie", fish_pie) ].

Definition utils : MealUtils := catalog_utils catalog.

(** Chicken Curry was eaten on 2024-01-01, a Monday. *)
Definition curry_on_new_year : gmap Z string :=
  {[ ymd2ord 2024 1 1 := "Chicken Curry" ]}.

Definition fajitas_and_chilli : list (string * meal_info) :=
  [ ("Chicken Fajitas", chicken_fajitas); ("Beef Chilli", beef_chilli) ].

(** Moussaka three days before 2024-01-10 and Lasagne two days after. *)
Definition moussaka_then_lasagne : gmap Z string :=
  {[ ymd2ord 2024 1 7 := "Moussaka"; ymd2ord 2024 1 12 := "Lasagne" ]}.

Definition lasagne_moussaka_chilli : list (string * meal_info) :=
  [ ("Lasagne", lasagne); ("Moussaka", moussaka);
    ("Beef Chilli", beef_chilli) ].

Definition roast_and_stir_fry : list (string * meal_info) :=
  [ ("Roast Chicken", roast_chicken); ("Stir Fry", stir_fry) ].

(** Two hundred grams of rice, with strings standing for the units. *)
Definition rice_quantity : Ingredient.IngredientQuantity string :=
  {| Ingredient.ingredient := Ingredient.VIngredients Ingredient.RICE;
     Ingredient.unit := Ingredient.VUnit "GRAM";
     Ingredient.quantity := Ingredient.VInt 200 |}.

End Scenario.

(** * Properties *)

(** ** Calendar *)

Lemma weekday_range d : 0 ≤ weekday d < 7.
Proof. unfold weekday. apply Z.mod_pos_bound. lia. Qed.

Example new_year_2024_is_monday : weekday (ymd2ord 2024 1 1) = 0.
Proof. reflexivity. Qed.

(** ** Dictionary comprehensions are filters *)

Section Comprehension.
Implicit Types (keep : string → option bool) (meals r : list (string * meal_info)).

Lemma dict_comprehension_Some keep meals r :
  dict_comprehension keep meals = Some r ↔
  defined_on keep meals ∧ r = filter (kept keep) meals.
Proof.
  unfold defined_on. revert r.
  induction meals as [|[name info] rest IH]; intros r; simpl.
  - split; [intros [= <-]; by split | by intros [_ ->]].
  - rewrite bind_Some. split.
    + intros (b & Hb & Hr). apply bind_Some in Hr as (rest' & Hrest & [= <-]).
      apply IH in Hrest as [Hdef ->]. split.
      * constructor; [by exists b | done].
      * destruct b.
        -- by rewrite filter_cons_True.
        -- rewrite filter_cons_False; [done|]. unfold kept. simpl. congruence.
    + intros [Hdef ->]. inversion_clear Hdef as [|? ? [b Hb] Hdef'].
      rename Hdef' into Hdef. simpl in Hb. exists b. split; [done|].
      assert (dict_comprehension keep rest = Some (filter (kept keep) rest))
        as -> by (by apply IH).
      simpl. destruct b.
      * by rewrite filter_cons_True.
      * rewrite filter_cons_False; [done|]. unfold kept. simpl. congruence.
Qed.

Lemma dict_comprehension_is_Some keep meals :
  defined_on keep meals → is_Some (dict_comprehension keep meals).
Proof. intros Hdef. eexists. by apply dict_comprehension_Some. Qed.

Lemma dict_comprehension_total keep (p : string → bool) meals :
  (∀ name, keep name = Some (p name)) →
  dict_comprehension keep meals = Some (filter (λ item, p item.1 = true) meals).
Proof.
  intros Hkeep. apply dict_comprehension_Some. split.
  - apply list.Forall_forall. intros item _. by rewrite Hkeep.
  - apply list_filter_iff. intros item. unfold kept. rewrite Hkeep.
    split; congruence.
Qed.

Lemma filter_all {A} (P : A → Prop) `{!∀ x, Decision (P x)} (l : list A) :
  Forall P l → filter P l = l.
Proof.
  induction 1 as [|x l Hx _ IH]; [done|]. by rewrite filter_cons_True, IH.
Qed.

Lemma dict_comprehension_unchanged keep meals :
  Forall (kept keep) meals → dict_comprehension keep meals = Some meals.
Proof.
  intros Hall. apply dict_comprehension_Some. split.
  - unfold defined_on. rewrite list.Forall_forall in *. intros item Hin.
    rewrite (Hall item Hin). by eexists.
  - symmetry. by apply filter_all.
Qed.

Lemma defined_on_filter keep (P : string * meal_info → Prop)
    `{!∀ x, Decision (P x)} meals :
  defined_on keep meals → defined_on keep (filter P meals).
Proof.
  unfold defined_on. rewrite !list.Forall_forall. intros Hdef item Hin.
  apply list_elem_of_filter in Hin as [_ Hin]. by apply Hdef.
Qed.
End Comprehension.

(** ** Narrowing functions *)

Section Narrowing.
Implicit Types (f g : list (string * meal_info) → option (list (string * meal_info))).
Implicit Types (meals r : list (string * meal_info)).

Lemma dict_comprehension_id meals :
  dict_comprehension (λ _, Some true) meals = Some meals.
Proof. apply dict_comprehension_unchanged, list.Forall_forall. by intros. Qed.

Lemma narrows_id : narrows Some.
Proof. right. exists (λ _, Some true). intros. by rewrite dict_comprehension_id. Qed.

Lemma narrows_comprehension keep : narrows (dict_comprehension keep).
Proof. right. by exists keep. Qed.

Lemma narrows_raise : narrows (λ _, None).
Proof. by left. Qed.

Lemma narrows_filter f meals r :
  narrows f → f meals = Some r →
  ∃ keep, (∀ l, f l = dict_comprehension keep l)
          ∧ defined_on keep meals ∧ r = filter (kept keep) meals.
Proof.
  intros [Hnone | (keep & Hkeep)] Hf; [by rewrite Hnone in Hf|].
  exists keep. split; [done|]. apply dict_comprehension_Some.
  by rewrite <-Hkeep.
Qed.

Lemma narrows_sublist f meals r : narrows f → f meals = Some r → r `sublist_of` meals.
Proof.
  intros Hf Hr. destruct (narrows_filter _ _ _ Hf Hr) as (keep & _ & _ & ->).
  apply sublist_filter.
Qed.

Lemma narrows_Forall (P : string * meal_info → Prop) f meals r :
  narrows f → f meals = Some r → Forall P meals → Forall P r.
Proof.
  intros Hf Hr. destruct (narrows_filter _ _ _ Hf Hr) as (keep & _ & _ & ->).
  rewrite !list.Forall_forall. intros Hall item Hin.
  apply list_elem_of_filter in Hin as [_ Hin]. by apply Hall.
Qed.

Lemma narrows_keys f meals r :
  narrows f → f meals = Some r → keys r ⊆ keys meals.
Proof.
  intros Hf Hr. destruct (narrows_filter _ _ _ Hf Hr) as (keep & _ & _ & ->).
  intros name. unfold keys. rewrite !list_elem_of_fmap.
  intros (item & -> & Hin). exists item. split; [done|].
  by apply list_elem_of_filter in Hin as [_ ?].
Qed.

Lemma narrows_idempotent f meals r :
  narrows f → f meals = Some r → f r = Some r.
Proof.
  intros Hf Hr.
  destruct (narrows_filter _ _ _ Hf Hr) as (keep & Hkeep & Hdef & ->).
  rewrite Hkeep. apply dict_comprehension_unchanged, list.Forall_forall.
  intros item Hin. by apply list_elem_of_filter in Hin as [? _].
Qed.

Lemma narrows_commute f g meals a b :
  narrows f → narrows g →
  f meals ≫= g = Some a → g meals ≫= f = Some b → a = b.
Proof.
  intros Hf Hg Ha Hb.
  apply bind_Some in Ha as (m1 & Hm1 & Ha).
  apply bind_Some in Hb as (m2 & Hm2 & Hb).
  destruct (narrows_filter _ _ _ Hf Hm1) as (kf & Hkf & _ & ->).
  destruct (narrows_filter _ _ _ Hg Hm2) as (kg & Hkg & _ & ->).
  rewrite Hkg in Ha. rewrite Hkf in Hb.
  apply dict_comprehension_Some in Ha as [_ ->].
  apply dict_comprehension_Some in Hb as [_ ->].
  rewrite !list_filter_filter. apply list_filter_iff. intros item. tauto.
Qed.

Lemma narrows_on_narrows dom f : narrows_on dom f → narrows f.
Proof. intros [?|(keep & _ & ?)]; [by left | right; by exists keep]. Qed.

Lemma narrows_on_id dom : narrows_on dom Some.
Proof.
  right. exists (λ _, Some true). split; [by eexists|].
  intros. by rewrite dict_comprehension_id.
Qed.

Lemma narrows_on_comprehension dom keep :
  (∀ name, dom name → is_Some (keep name)) →
  narrows_on dom (dict_comprehension keep).
Proof. right. by exists keep. Qed.

Lemma narrows_on_raise dom : narrows_on dom (λ _, None).
Proof. by left. Qed.

(** On candidates of the domain, two narrowing functions commute, raising
    included. *)
Lemma narrows_on_commute dom f g meals :
  narrows_on dom f → narrows_on dom g →
  Forall (λ item, dom item.1) meals →
  f meals ≫= g = g meals ≫= f.
Proof.
  intros Hf Hg Hdom.
  assert (∀ keep, (∀ name, dom name → is_Some (keep name)) →
                  defined_on keep meals) as Hdefined.
  { intros keep Hkeep. unfold defined_on. eapply Forall_impl; [|exact Hdom].
    intros item. apply Hkeep. }
  destruct Hf as [Hf | (kf & Hkf & Hf)], Hg as [Hg | (kg & Hkg & Hg)].
  - rewrite Hf, Hg. done.
  - rewrite Hf. simpl. destruct (g meals); simpl; by rewrite ?Hf.
  - rewrite Hg. simpl. destruct (f meals); simpl; by rewrite ?Hg.
  - rewrite Hf, Hg.
    pose proof (proj2 (dict_comprehension_Some kf meals _)
                  (conj (Hdefined kf Hkf) eq_refl)) as ->.
    pose proof (proj2 (dict_comprehension_Some kg meals _)
                  (conj (Hdefined kg Hkg) eq_refl)) as ->.
    simpl. rewrite Hf, Hg.
    pose proof (proj2 (dict_comprehension_Some kg (filter (kept kf) meals) _)
      (conj (defined_on_filter _ _ _ (Hdefined kg Hkg)) eq_refl)) as ->.
    pose proof (proj2 (dict_comprehension_Some kf (filter (kept kg) meals) _)
      (conj (defined_on_filter _ _ _ (Hdefined kf Hkf)) eq_refl)) as ->.
    f_equal. rewrite !list_filter_filter. apply list_filter_iff.
    intros item. tauto.
Qed.
End Narrowing.

(** ** Every rule of the catalog narrows *)

Section RulesNarrow.
Context `{MealUtils}.
Implicit Types (meals r : list (string * meal_info)) (d : Z) (h : gmap Z string).

Lemma not_consecutive_same_protein_narrows d h :
  narrows_on has_metadata (λ meals, not_consecutive_same_protein meals d h).
Proof.
  unfold not_consecutive_same_protein.
  destruct (mapM get_protein _) as [proteins|]; simpl;
    [|apply narrows_on_raise].
  apply narrows_on_comprehension. intros name ([p ->] & _). by eexists.
Qed.

Lemma not_within_seven_days_narrows d h :
  narrows_on has_metadata (λ meals, not_within_seven_days meals d h).
Proof. apply narrows_on_comprehension. by eexists. Qed.

Lemma not_non_favourite_within_fourteen_days_narrows d h :
  narrows_on has_metadata
    (λ meals, not_non_favourite_within_fourteen_days meals d h).
Proof.
  apply narrows_on_comprehension. intros name (_ & [fav ->] & _). by eexists.
Qed.

Lemma not_pasta_within_five_days_narrows d h :
  narrows_on has_metadata (λ meals, not_pasta_within_five_days meals d h).
Proof.
  unfold not_pasta_within_five_days.
  destruct (mapM is_pasta _) as [flags|]; simpl; [|apply narrows_on_raise].
  destruct (any flags); [|apply narrows_on_id].
  apply narrows_on_comprehension. intros name (_ & _ & _ & [b ->] & _).
  by eexists.
Qed.

Lemma force_sunday_roast_narrows d h :
  narrows_on has_metadata (λ meals, force_sunday_roast meals d h).
Proof.
  unfold force_sunday_roast. case_bool_decide; [apply narrows_on_id|].
  apply narrows_on_comprehension. by intros name (_ & _ & _ & _ & ? & _).
Qed.

Lemma not_roast_on_non_sunday_narrows d h :
  narrows_on has_metadata (λ meals, not_roast_on_non_sunday meals d h).
Proof.
  unfold not_roast_on_non_sunday. case_bool_decide; [apply narrows_on_id|].
  apply narrows_on_comprehension. intros name (_ & _ & _ & _ & [b ->] & _).
  by eexists.
Qed.

Lemma not_fish_within_seven_days_narrows d h :
  narrows_on has_metadata (λ meals, not_fish_within_seven_days meals d h).
Proof.
  unfold not_fish_within_seven_days.
  destruct (mapM is_fish _) as [flags|]; simpl; [|apply narrows_on_raise].
  destruct (any flags); [|apply narrows_on_id].
  apply narrows_on_comprehension. intros name (_ & _ & [b ->] & _).
  by eexists.
Qed.

Lemma not_time_consuming_on_weekend_narrows d h :
  narrows_on has_metadata (λ meals, not_time_consuming_on_weekend meals d h).
Proof.
  unfold not_time_consuming_on_weekend.
  case_bool_decide; [apply narrows_on_id|].
  apply narrows_on_comprehension.
  intros name (_ & _ & _ & _ & _ & [b ->]). by eexists.
Qed.

(** The two successive comprehensions of the Lasagne/Moussaka rule amount
    to one filter. *)
Lemma not_lasagne_and_moussaka_within_seven_days_filter meals d h :
  not_lasagne_and_moussaka_within_seven_days meals d h =
  Some (filter
    (λ item,
       ¬ (item.1 = "Lasagne"
          ∧ "Moussaka" ∈ get_close_history_meal_names h d 7)
       ∧ ¬ (item.1 = "Moussaka"
            ∧ "Lasagne" ∈ get_close_history_meal_names h d 7))
    meals).
Proof.
  unfold not_lasagne_and_moussaka_within_seven_days.
  set (names := get_close_history_meal_names h d 7).
  destruct (bool_decide_reflect ("Moussaka" ∈ names)) as [Hm|Hm];
    destruct (bool_decide_reflect ("Lasagne" ∈ names)) as [Hl|Hl]; simpl;
    rewrite ?(dict_comprehension_total _ (λ name, bool_decide (name ≠ "Lasagne")))
      by done; simpl;
    rewrite ?(dict_comprehension_total _ (λ name, bool_decide (name ≠ "Moussaka")))
      by done; simpl;
    f_equal; rewrite ?list_filter_filter;
    try (apply list_filter_iff; intros item; rewrite ?bool_decide_eq_true; tauto).
  symmetry. apply filter_all, list.Forall_forall. intros item _. tauto.
Qed.

Lemma not_lasagne_and_moussaka_within_seven_days_narrows d h :
  narrows_on has_metadata
    (λ meals, not_lasagne_and_moussaka_within_seven_days meals d h).
Proof.
  right.
  exists (λ name, Some (bool_decide
    (¬ (name = "Lasagne" ∧ "Moussaka" ∈ get_close_history_meal_names h d 7)
     ∧ ¬ (name = "Moussaka"
          ∧ "Lasagne" ∈ get_close_history_meal_names h d 7)))).
  split; [by eexists|].
  intros meals. rewrite not_lasagne_and_moussaka_within_seven_days_filter.
  symmetry. erewrite dict_comprehension_total by done. f_equal.
  apply list_filter_iff. intros item. by rewrite bool_decide_eq_true.
Qed.

Lemma rule_catalog_narrows_on
    (rule : list (string * meal_info) → Z → gmap Z string
            → option (list (string * meal_info))) d h :
  rule ∈ rule_catalog → narrows_on has_metadata (λ meals, rule meals d h).
Proof.
  unfold rule_catalog. rewrite !elem_of_cons, elem_of_nil.
  intros [->|[->|[->|[->|[->|[->|[->|[->|[->|[]]]]]]]]]].
  - apply not_consecutive_same_protein_narrows.
  - apply not_within_seven_days_narrows.
  - apply not_non_favourite_within_fourteen_days_narrows.
  - apply not_pasta_within_five_days_narrows.
  - apply force_sunday_roast_narrows.
  - apply not_roast_on_non_sunday_narrows.
  - apply not_fish_within_seven_days_narrows.
  - apply not_time_consuming_on_weekend_narrows.
  - apply not_lasagne_and_moussaka_within_seven_days_narrows.
Qed.

Lemma rule_catalog_narrows
    (rule : list (string * meal_info) → Z → gmap Z string
            → option (list (string * meal_info))) d h :
  rule ∈ rule_catalog → narrows (λ meals, rule meals d h).
Proof. intros. by eapply narrows_on_narrows, rule_catalog_narrows_on. Qed.
End RulesNarrow.

(** ** The history window *)

Lemma elem_of_get_close_history_meal_names (h : gmap Z string) d n name :
  name ∈ get_close_history_meal_names h d n
  ↔ ∃ d', h !! d' = Some name ∧ Z.abs (d' - d) ≤ n.
Proof.
  unfold get_close_history_meal_names. rewrite elem_of_map_img.
  split; intros (d' & Hd'); exists d'.
  - by apply map_lookup_filter_Some in Hd'.
  - by apply map_lookup_filter_Some.
Qed.

Lemma get_close_history_meal_names_empty (h : gmap Z string) d n :
  (∀ d', Z.abs (d' - d) ≤ n → h !! d' = None) →
  get_close_history_meal_names h d n = ∅.
Proof.
  intros Hnone. apply set_eq. intros name.
  rewrite elem_of_get_close_history_meal_names, elem_of_empty.
  split; [|done]. intros (d' & Hd' & Hle). by rewrite Hnone in Hd'.
Qed.

Lemma get_close_history_meal_names_mono (h : gmap Z string) d n n' :
  n ≤ n' →
  get_close_history_meal_names h d n ⊆ get_close_history_meal_names h d n'.
Proof.
  intros Hle name. rewrite !elem_of_get_close_history_meal_names.
  intros (d' & ? & ?). exists d'. split; [done|lia].
Qed.

(** C2. [get_close_history_meal_names] returns exactly the names of the
    meals whose history date is within [n_days] of the target date, in
    either direction: an entry exactly [n_days] before or after the target
    is included, a meal whose entries all lie at distance [n_days + 1] is
    excluded, and the result is the empty set when no entry falls in the
    window. *)
Theorem get_close_history_meal_names_window (h : gmap Z string) d n :
  (∀ name, name ∈ get_close_history_meal_names h d n
           ↔ ∃ d', h !! d' = Some name ∧ Z.abs (d' - d) ≤ n)
  ∧ (∀ name, 0 ≤ n → h !! (d - n) = Some name →
             name ∈ get_close_history_meal_names h d n)
  ∧ (∀ name, 0 ≤ n → h !! (d + n) = Some name →
             name ∈ get_close_history_meal_names h d n)
  ∧ (∀ name, 0 ≤ n →
             (∀ d', h !! d' = Some name → Z.abs (d' - d) = n + 1) →
             name ∉ get_close_history_meal_names h d n)
  ∧ ((∀ d', Z.abs (d' - d) ≤ n → h !! d' = None) →
     get_close_history_meal_names h d n = ∅).
Proof.
  split; [intros; apply elem_of_get_close_history_meal_names|].
  repeat split.
  - intros name Hn Hname. apply elem_of_get_close_history_meal_names.
    exists (d - n). split; [done|lia].
  - intros name Hn Hname. apply elem_of_get_close_history_meal_names.
    exists (d + n). split; [done|lia].
  - intros name Hn Hfar. rewrite elem_of_get_close_history_meal_names.
    intros (d' & Hd' & Hle). apply Hfar in Hd'. lia.
  - apply get_close_history_meal_names_empty.
Qed.

Lemma get_close_history_meal_names_window_witness :
  "Chicken Curry"
    ∈ get_close_history_meal_names Scenario.curry_on_new_year
        (ymd2ord 2024 1 2) 1
  ∧ ("Chicken Curry"
      ∉ get_close_history_meal_names Scenario.curry_on_new_year
          (ymd2ord 2024 1 3) 1)
  ∧ get_close_history_meal_names Scenario.curry_on_new_year
      (ymd2ord 2024 1 20) 14 = ∅.
Proof.
  pose proof (get_close_history_meal_names_window Scenario.curry_on_new_year
                (ymd2ord 2024 1 2) 1) as (_ & Hbefore & _).
  pose proof (get_close_history_meal_names_window Scenario.curry_on_new_year
                (ymd2ord 2024 1 3) 1) as (_ & _ & _ & Hfar & _).
  pose proof (get_close_history_meal_names_window Scenario.curry_on_new_year
                (ymd2ord 2024 1 20) 14) as (_ & _ & _ & _ & Hnone).
  split; [|split].
  - apply Hbefore; [lia | reflexivity].
  - apply Hfar; [lia|]. intros d' Hd'.
    unfold Scenario.curry_on_new_year in Hd'.
    apply lookup_singleton_Some in Hd' as [<- _]. reflexivity.
  - apply Hnone. intros d' Hd'. unfold Scenario.curry_on_new_year.
    apply lookup_singleton_ne. intros <-.
    assert (ymd2ord 2024 1 1 = 738886) as E1 by reflexivity.
    assert (ymd2ord 2024 1 20 = 738905) as E2 by reflexivity.
    rewrite E1, E2 in Hd'. lia.
Defined.

(** ** Monotonic narrowing, idempotence and commutation *)

Section Catalog.
Context `{MealUtils}.
Implicit Types (meals r : list (string * meal_info)) (d : Z) (h : gmap Z string).
Implicit Types
  (rule : list (string * meal_info) → Z → gmap Z string
          → option (list (string * meal_info))).

(** C1. For every rule of the catalog, every candidate mapping, date and
    combined history, the key set of the result is a subset of the key set
    of the candidates: the result is a sub-dictionary of the candidates, so
    a rule only removes entries and never adds any. *)
Theorem rule_result_keys_subset rule meals d h r :
  rule ∈ rule_catalog →
  rule meals d h = Some r →
  keys r ⊆ keys meals ∧ r `sublist_of` meals.
Proof.
  intros Hrule Hr. pose proof (rule_catalog_narrows rule d h Hrule) as Hn.
  split.
  - by apply (narrows_keys (λ meals, rule meals d h) meals r).
  - by apply (narrows_sublist (λ meals, rule meals d h) meals r).
Qed.

(** C6. Every rule of the catalog is idempotent: applied to its own result
    with the same date and history, it returns that result again. Applying
    the rule twice is the same computation as applying it once, also when
    it raises. *)
Theorem rule_idempotent rule meals d h :
  rule ∈ rule_catalog →
  (∀ r, rule meals d h = Some r → rule r d h = Some r)
  ∧ rule meals d h ≫= (λ r, rule r d h) = rule meals d h.
Proof.
  intros Hrule. pose proof (rule_catalog_narrows rule d h Hrule) as Hn.
  assert (∀ r, rule meals d h = Some r → rule r d h = Some r) as Hidem.
  { intros r Hr. by apply (narrows_idempotent (λ meals, rule meals d h) meals). }
  split; [done|].
  destruct (rule meals d h) as [r|] eqn:Hr; [|done]. simpl. by apply Hidem.
Qed.

(** Two rules of the catalog applied one after the other. *)
Lemma rules_commute_when_both_return rule1 rule2 meals d h a b :
  rule1 ∈ rule_catalog → rule2 ∈ rule_catalog →
  rule1 meals d h ≫= (λ m, rule2 m d h) = Some a →
  rule2 meals d h ≫= (λ m, rule1 m d h) = Some b →
  a = b.
Proof.
  intros H1 H2.
  apply (narrows_commute (λ m, rule1 m d h) (λ m, rule2 m d h));
    by apply rule_catalog_narrows.
Qed.

Lemma rules_commute_on_catalog_candidates rule1 rule2 meals d h :
  rule1 ∈ rule_catalog → rule2 ∈ rule_catalog →
  candidates_have_metadata meals →
  rule1 meals d h ≫= (λ m, rule2 m d h)
  = rule2 meals d h ≫= (λ m, rule1 m d h).
Proof.
  intros H1 H2 Hmeta.
  apply (narrows_on_commute has_metadata
           (λ m, rule1 m d h) (λ m, rule2 m d h));
    by try apply rule_catalog_narrows_on.
Qed.

Lemma rule_preserves_metadata rule meals d h r :
  rule ∈ rule_catalog → candidates_have_metadata meals →
  rule meals d h = Some r → candidates_have_metadata r.
Proof.
  intros Hrule Hmeta Hr. unfold candidates_have_metadata.
  apply (narrows_Forall _ (λ meals, rule meals d h) meals); [|done..].
  by apply rule_catalog_narrows.
Qed.

(** What a pipeline returns is the candidates that each of its rules keeps
    when it is given that candidate alone. *)
Lemma narrows_survivors
    (f : list (string * meal_info) → option (list (string * meal_info)))
    meals r :
  narrows f → f meals = Some r →
  r = filter (λ item, f [item] = Some [item]) meals.
Proof.
  intros Hf Hr. destruct (narrows_filter _ _ _ Hf Hr) as (keep & Hkeep & _ & ->).
  apply list_filter_iff. intros [name info]. rewrite Hkeep.
  unfold kept. simpl. destruct (keep name) as [[|]|]; simpl; split; congruence.
Qed.

Lemma apply_rules_survivors
    (rs : list (list (string * meal_info) → Z → gmap Z string
                → option (list (string * meal_info)))) meals d h r :
  Forall (λ rule, rule ∈ rule_catalog) rs →
  apply_rules rs meals d h = Some r →
  r = filter (λ item, Forall (λ rule, rule [item] d h = Some [item]) rs) meals.
Proof.
  intros Hrs. revert meals r.
  induction Hrs as [|rule rs Hrule _ IH]; intros meals r.
  - simpl. intros [= <-]. symmetry. apply filter_all, list.Forall_forall.
    intros; constructor.
  - simpl. intros (m & Hm & Hr)%bind_Some. apply IH in Hr as ->.
    apply (narrows_survivors (λ meals, rule meals d h)) in Hm as ->;
      [|by apply rule_catalog_narrows].
    rewrite list_filter_filter. apply list_filter_iff. intros item.
    rewrite Forall_cons_iff. tauto.
Qed.

Lemma apply_rules_permutation_when_both_return
    (rs rs' : list (list (string * meal_info) → Z → gmap Z string
                    → option (list (string * meal_info)))) meals d h a b :
  Forall (λ rule, rule ∈ rule_catalog) rs → rs ≡ₚ rs' →
  apply_rules rs meals d h = Some a → apply_rules rs' meals d h = Some b →
  a = b.
Proof.
  intros Hrs Hperm Ha Hb.
  apply apply_rules_survivors in Ha as ->; [|done].
  apply apply_rules_survivors in Hb as ->; [|by rewrite <-Hperm].
  apply list_filter_iff. intros item. by rewrite Hperm.
Qed.

Lemma apply_rules_permutation_on_catalog_candidates
    (rs rs' : list (list (string * meal_info) → Z → gmap Z string
                    → option (list (string * meal_info)))) meals d h :
  Forall (λ rule, rule ∈ rule_catalog) rs → rs ≡ₚ rs' →
  candidates_have_metadata meals →
  apply_rules rs meals d h = apply_rules rs' meals d h.
Proof.
  intros Hrs Hperm. revert meals Hrs.
  induction Hperm as [|rule rs rs' _ IH|rule1 rule2 rs|rs rs' rs'' Hp1 IH1 _ IH2];
    intros meals Hrs Hmeta.
  - done.
  - apply Forall_cons_iff in Hrs as [Hrule Hrs]. simpl.
    destruct (rule meals d h) as [m|] eqn:Hm; [|done]. simpl.
    apply IH; [done|]. by eapply rule_preserves_metadata.
  - apply Forall_cons_iff in Hrs as [H2 Hrs]. apply Forall_cons_iff in Hrs as [H1 Hrs].
    simpl.
    pose proof (rules_commute_on_catalog_candidates rule1 rule2 meals d h
                  H1 H2 Hmeta) as Hcomm.
    destruct (rule1 meals d h) as [m1|], (rule2 meals d h) as [m2|];
      simpl in *; try done.
    + destruct (rule2 m1 d h), (rule1 m2 d h); simpl in *; congruence.
    + by rewrite Hcomm.
    + by rewrite <-Hcomm.
  - rewrite IH1 by done. apply IH2; [by rewrite <-Hp1 | done].
Qed.

(** C7. Rule application commutes. For every pair of rules of the catalog
    and every candidate mapping, date and combined history, the two orders
    of application yield the same candidate mapping; on candidates that all
    have catalog metadata the two orders are the same computation, raising
    included. Hence the result of the pipeline does not depend on the order
    in which the rules of the catalog are applied. *)
Theorem rule_application_commutes meals d h :
  (∀ rule1 rule2, rule1 ∈ rule_catalog → rule2 ∈ rule_catalog →
     (∀ a b, rule1 meals d h ≫= (λ m, rule2 m d h) = Some a →
             rule2 meals d h ≫= (λ m, rule1 m d h) = Some b → a = b)
     ∧ (candidates_have_metadata meals →
        rule1 meals d h ≫= (λ m, rule2 m d h)
        = rule2 meals d h ≫= (λ m, rule1 m d h)))
  ∧ (∀ rs rs' : list (list (string * meal_info) → Z → gmap Z string
                     → option (list (string * meal_info))),
       Forall (λ rule, rule ∈ rule_catalog) rs → rs ≡ₚ rs' →
       (∀ a b, apply_rules rs meals d h = Some a →
               apply_rules rs' meals d h = Some b → a = b)
       ∧ (candidates_have_metadata meals →
          apply_rules rs meals d h = apply_rules rs' meals d h)).
Proof.
  split.
  - intros rule1 rule2 H1 H2. split.
    + intros a b. by apply rules_commute_when_both_return.
    + by apply rules_commute_on_catalog_candidates.
  - intros rs rs' Hrs Hperm. split.
    + intros a b. by apply apply_rules_permutation_when_both_return.
    + by apply apply_rules_permutation_on_catalog_candidates.
Qed.
End Catalog.

(** ** Totality *)

Lemma mapM_elem_of {A B} (f : A → option B) (l : list A) (k : list B) y :
  mapM f l = Some k → y ∈ k ↔ ∃ x, x ∈ l ∧ f x = Some y.
Proof.
  intros Hk%mapM_Some. induction Hk as [|x z l k Hx _ IH].
  - split; [by intros ?%elem_of_nil|]. by intros (x & ?%elem_of_nil & _).
  - rewrite elem_of_cons, IH. split.
    + intros [->|(x' & ? & ?)]; [exists x | exists x'];
        rewrite elem_of_cons; auto.
    + intros (x' & [->|Hin]%elem_of_cons & Hx'); [left; congruence|].
      right. by exists x'.
Qed.

Lemma narrows_on_is_Some dom
    (f : list (string * meal_info) → option (list (string * meal_info)))
    (meals : list (string * meal_info)) :
  narrows_on dom f → Forall (λ item, dom item.1) meals →
  is_Some (f []) → is_Some (f meals).
Proof.
  intros [Hnone | (keep & Hkeep & Hf)] Hdom Hnil.
  - rewrite Hnone in Hnil. by destruct Hnil.
  - rewrite Hf. apply dict_comprehension_is_Some. unfold defined_on.
    eapply Forall_impl; [|exact Hdom]. intros item. apply Hkeep.
Qed.

Section Totality.
Context `{MealUtils}.
Implicit Types (meals r : list (string * meal_info)) (d : Z) (h : gmap Z string).

Lemma window_lookups_return {B} (f : string → option B) h d n :
  n ≤ 7 → window_has_metadata h d 7 →
  (∀ name, has_metadata name → is_Some (f name)) →
  is_Some (mapM f (elements (get_close_history_meal_names h d n))).
Proof.
  intros Hn Hwin Hf. apply mapM_is_Some, list.Forall_forall.
  intros name Hin%elem_of_elements. apply Hf, Hwin.
  revert Hin. by apply get_close_history_meal_names_mono.
Qed.

(** A rule raises on no candidates only if a lookup on a history meal
    raises. *)
Lemma rule_returns_on_no_candidates
    (rule : list (string * meal_info) → Z → gmap Z string
            → option (list (string * meal_info))) d h :
  rule ∈ rule_catalog → window_has_metadata h d 7 → is_Some (rule [] d h).
Proof.
  unfold rule_catalog. rewrite !elem_of_cons, elem_of_nil.
  intros [->|[->|[->|[->|[->|[->|[->|[->|[->|[]]]]]]]]]] Hwin.
  - unfold not_consecutive_same_protein.
    destruct (window_lookups_return get_protein h d 1) as [proteins ->];
      [lia | done | by intros name (? & _) | by eexists].
  - by eexists.
  - by eexists.
  - unfold not_pasta_within_five_days.
    destruct (window_lookups_return is_pasta h d 5) as [flags ->];
      [lia | done | by intros name (_ & _ & _ & ? & _) |].
    simpl. destruct (any flags); by eexists.
  - unfold force_sunday_roast. case_bool_decide; by eexists.
  - unfold not_roast_on_non_sunday. case_bool_decide; by eexists.
  - unfold not_fish_within_seven_days.
    destruct (window_lookups_return is_fish h d 7) as [flags ->];
      [lia | done | by intros name (_ & _ & ? & _) |].
    simpl. destruct (any flags); by eexists.
  - unfold not_time_consuming_on_weekend. case_bool_decide; by eexists.
  - rewrite not_lasagne_and_moussaka_within_seven_days_filter. by eexists.
Qed.

(** On candidates that have catalog metadata, a rule returns as soon as
    the history meals within seven days of the date have metadata. *)
Lemma rules_total
    (rule : list (string * meal_info) → Z → gmap Z string
            → option (list (string * meal_info))) meals d h :
  rule ∈ rule_catalog →
  candidates_have_metadata meals →
  window_has_metadata h d 7 →
  is_Some (rule meals d h).
Proof.
  intros Hrule Hmeta Hwin.
  apply (narrows_on_is_Some has_metadata (λ meals, rule meals d h)).
  - by apply rule_catalog_narrows_on.
  - done.
  - by apply rule_returns_on_no_candidates.
Qed.

Lemma history_of_meals_window h d n :
  history_of_meals h → window_has_metadata h d n.
Proof.
  intros Hmeals name (d' & Hd' & _)%elem_of_get_close_history_meal_names.
  by apply (Hmeals d').
Qed.

Lemma window_lookups_return_within {B} (f : string → option B) h d n :
  window_has_metadata h d n →
  (∀ name, has_metadata name → is_Some (f name)) →
  is_Some (mapM f (elements (get_close_history_meal_names h d n))).
Proof.
  intros Hwin Hf. apply mapM_is_Some, list.Forall_forall.
  intros name Hin%elem_of_elements. by apply Hf, Hwin.
Qed.

(** What each rule needs of the history in order to return: six rules
    nothing at all, the three others metadata for the meals of their own
    window. *)
Lemma rules_total_by_window meals d h :
  candidates_have_metadata meals →
  (window_has_metadata h d 1 →
   is_Some (not_consecutive_same_protein meals d h))
  ∧ is_Some (not_within_seven_days meals d h)
  ∧ is_Some (not_non_favourite_within_fourteen_days meals d h)
  ∧ (window_has_metadata h d 5 →
     is_Some (not_pasta_within_five_days meals d h))
  ∧ is_Some (force_sunday_roast meals d h)
  ∧ is_Some (not_roast_on_non_sunday meals d h)
  ∧ (window_has_metadata h d 7 →
     is_Some (not_fish_within_seven_days meals d h))
  ∧ is_Some (not_time_consuming_on_weekend meals d h)
  ∧ is_Some (not_lasagne_and_moussaka_within_seven_days meals d h).
Proof.
  intros Hmeta.
  assert (∀ f : list (string * meal_info) → option (list (string * meal_info)),
            narrows_on has_metadata f → is_Some (f []) → is_Some (f meals))
    as Hreturns.
  { intros f Hf Hnil. by apply (narrows_on_is_Some has_metadata f meals). }
  repeat split.
  - intros Hwin.
    apply (Hreturns _ (not_consecutive_same_protein_narrows d h)).
    unfold not_consecutive_same_protein.
    destruct (window_lookups_return_within get_protein h d 1)
      as [proteins ->]; [done | by intros name (? & _) | by eexists].
  - apply (Hreturns _ (not_within_seven_days_narrows d h)). by eexists.
  - apply (Hreturns _ (not_non_favourite_within_fourteen_days_narrows d h)).
    by eexists.
  - intros Hwin.
    apply (Hreturns _ (not_pasta_within_five_days_narrows d h)).
    unfold not_pasta_within_five_days.
    destruct (window_lookups_return_within is_pasta h d 5) as [flags ->];
      [done | by intros name (_ & _ & _ & ? & _) |].
    simpl. destruct (any flags); by eexists.
  - apply (Hreturns _ (force_sunday_roast_narrows d h)).
    unfold force_sunday_roast. case_bool_decide; by eexists.
  - apply (Hreturns _ (not_roast_on_non_sunday_narrows d h)).
    unfold not_roast_on_non_sunday. case_bool_decide; by eexists.
  - intros Hwin.
    apply (Hreturns _ (not_fish_within_seven_days_narrows d h)).
    unfold not_fish_within_seven_days.
    destruct (window_lookups_return_within is_fish h d 7) as [flags ->];
      [done | by intros name (_ & _ & ? & _) |].
    simpl. destruct (any flags); by eexists.
  - apply (Hreturns _ (not_time_consuming_on_weekend_narrows d h)).
    unfold not_time_consuming_on_weekend. case_bool_decide; by eexists.
  - rewrite not_lasagne_and_moussaka_within_seven_days_filter. by eexists.
Qed.

(** C8. Every rule is total: for every candidate mapping whose names all
    have catalog metadata (empty or not), every date and every combined
    history, a mapping from dates to meals, no rule raises. What a rule
    returns may be the empty mapping, which is a return value like any
    other, as when only roasts are allowed and no candidate is a roast. *)
Theorem rules_never_raise_on_valid_input
    (rule : list (string * meal_info) → Z → gmap Z string
            → option (list (string * meal_info))) meals d h :
  rule ∈ rule_catalog →
  candidates_have_metadata meals →
  history_of_meals h →
  (∃ r, rule meals d h = Some r)
  ∧ (weekday d = 6 →
     Forall (λ item, is_roast item.1 = Some false) meals →
     force_sunday_roast meals d h = Some []).
Proof.
  intros Hrule Hmeta Hmeals. split.
  - destruct (rules_total_by_window meals d h Hmeta)
      as (Hprotein & ? & ? & Hpasta & ? & ? & Hfish & ? & ?).
    pose proof (λ n, history_of_meals_window h d n Hmeals) as Hwin.
    revert Hrule. unfold rule_catalog. rewrite !elem_of_cons, elem_of_nil.
    intros [->|[->|[->|[->|[->|[->|[->|[->|[->|[]]]]]]]]]];
      first [done | by apply Hprotein | by apply Hpasta | by apply Hfish].
  - intros Hsunday Hnone. unfold force_sunday_roast.
    rewrite bool_decide_eq_false_2 by lia.
    apply dict_comprehension_Some. split.
    + unfold defined_on. eapply Forall_impl; [|exact Hnone].
      intros item ->. by eexists.
    + clear Hmeta. induction Hnone as [|item l Hitem _ IH]; [done|].
      rewrite filter_cons_False; [done|]. unfold kept. congruence.
Qed.
End Totality.

(** ** What each rule removes *)

Lemma elem_of_window_eaten_within (h : gmap Z string) d n name :
  name ∈ get_close_history_meal_names h d n ↔ eaten_within h d n name.
Proof.
  rewrite elem_of_get_close_history_meal_names. unfold eaten_within.
  split; intros (d' & ? & ?); by exists d'.
Qed.

Lemma no_entry_within_empty (h : gmap Z string) d n n' :
  n ≤ n' → no_entry_within h d n' → get_close_history_meal_names h d n = ∅.
Proof.
  intros Hle Hnone. apply get_close_history_meal_names_empty.
  intros d' Hd'. apply Hnone. lia.
Qed.

Section Behaviour.
Context `{MealUtils}.
Implicit Types (meals r : list (string * meal_info)) (d : Z) (h : gmap Z string).

(** The roast rule that is active on a Sunday. *)
Lemma force_sunday_roast_on_sunday meals d h r :
  weekday d = 6 →
  force_sunday_roast meals d h = Some r
  ↔ defined_on is_roast meals
    ∧ r = filter (λ item, is_roast item.1 = Some true) meals.
Proof.
  intros Hd. unfold force_sunday_roast. rewrite bool_decide_eq_false_2 by lia.
  apply dict_comprehension_Some.
Qed.

(** The roast rule that is active on the other days. *)
Lemma not_roast_on_non_sunday_off_sunday meals d h r :
  weekday d ≠ 6 →
  not_roast_on_non_sunday meals d h = Some r
  ↔ defined_on is_roast meals
    ∧ r = filter (λ item, is_roast item.1 = Some false) meals.
Proof.
  intros Hd. unfold not_roast_on_non_sunday.
  rewrite bool_decide_eq_false_2 by done. rewrite dict_comprehension_Some.
  assert (∀ l, defined_on (λ name, negb <$> is_roast name) l
               ↔ defined_on is_roast l) as ->.
  { intros l. unfold defined_on. apply Forall_proper; [|done].
    intros item. by rewrite fmap_is_Some. }
  assert (filter (kept (λ name, negb <$> is_roast name)) meals
          = filter (λ item, is_roast item.1 = Some false) meals) as ->; [|done].
  apply list_filter_iff. intros item. unfold kept.
  destruct (is_roast item.1) as [[|]|]; simpl; split; congruence.
Qed.

(** C4. For every date exactly one of the two roast policies is active. On
    a Sunday (weekday 6, Monday being 0) [force_sunday_roast] keeps exactly
    the roast candidates and [not_roast_on_non_sunday] returns its input
    unchanged; on every other day [not_roast_on_non_sunday] removes exactly
    the roast candidates and [force_sunday_roast] returns its input
    unchanged. *)
Theorem roast_policies_exclusive_and_exhaustive d :
  (weekday d = 6
   ∧ (∀ meals h, not_roast_on_non_sunday meals d h = Some meals)
   ∧ (∀ meals h r,
        force_sunday_roast meals d h = Some r
        ↔ defined_on is_roast meals
          ∧ r = filter (λ item, is_roast item.1 = Some true) meals))
  ∨ (weekday d ≠ 6
     ∧ (∀ meals h, force_sunday_roast meals d h = Some meals)
     ∧ (∀ meals h r,
          not_roast_on_non_sunday meals d h = Some r
          ↔ defined_on is_roast meals
            ∧ r = filter (λ item, is_roast item.1 = Some false) meals)).
Proof.
  destruct (decide (weekday d = 6)) as [Hd|Hd]; [left|right];
    (split; [done|split]).
  - intros meals h. unfold not_roast_on_non_sunday.
    by rewrite bool_decide_eq_true_2.
  - intros meals h r. by apply force_sunday_roast_on_sunday.
  - intros meals h. unfold force_sunday_roast.
    by rewrite bool_decide_eq_true_2.
  - intros meals h r. by apply not_roast_on_non_sunday_off_sunday.
Qed.

(** C5. [not_lasagne_and_moussaka_within_seven_days] always returns; it
    removes "Lasagne" exactly when "Moussaka" is in the seven-day window of
    the history and "Moussaka" exactly when "Lasagne" is; the two checks
    are independent and both fire on the same call when both meals are in
    the window; every other candidate is kept. *)
Theorem lasagne_and_moussaka_exclude_each_other meals d h :
  ∃ r, not_lasagne_and_moussaka_within_seven_days meals d h = Some r
       ∧ r `sublist_of` meals
       ∧ (∀ info, ("Lasagne", info) ∈ meals →
                  ("Lasagne", info) ∉ r ↔ eaten_within h d 7 "Moussaka")
       ∧ (∀ info, ("Moussaka", info) ∈ meals →
                  ("Moussaka", info) ∉ r ↔ eaten_within h d 7 "Lasagne")
       ∧ (∀ name info, name ≠ "Lasagne" → name ≠ "Moussaka" →
                       (name, info) ∈ meals → (name, info) ∈ r)
       ∧ (eaten_within h d 7 "Moussaka" → eaten_within h d 7 "Lasagne" →
          ∀ name info, (name, info) ∈ r
                       ↔ (name, info) ∈ meals
                         ∧ name ≠ "Lasagne" ∧ name ≠ "Moussaka").
Proof.
  eexists. split; [apply not_lasagne_and_moussaka_within_seven_days_filter|].
  split; [apply sublist_filter|].
  setoid_rewrite <-elem_of_window_eaten_within.
  set (names := get_close_history_meal_names h d 7).
  set (r := filter _ meals).
  assert (∀ name info,
            (name, info) ∈ r
            ↔ (name, info) ∈ meals
              ∧ ¬ (name = "Lasagne" ∧ "Moussaka" ∈ names)
              ∧ ¬ (name = "Moussaka" ∧ "Lasagne" ∈ names)) as Hr.
  { intros name info. unfold r. rewrite list_elem_of_filter. simpl. tauto. }
  split; [|split; [|split]].
  - intros info Hin. rewrite Hr.
    destruct (decide ("Moussaka" ∈ names)); split; try tauto.
    intros Hnot. exfalso. apply Hnot.
    split; [done|]. split; intros [? ?]; done.
  - intros info Hin. rewrite Hr.
    destruct (decide ("Lasagne" ∈ names)); split; try tauto.
    intros Hnot. exfalso. apply Hnot.
    split; [done|]. split; intros [? ?]; done.
  - intros name info Hnl Hnm Hin. apply Hr. tauto.
  - intros Hm Hl name info. rewrite Hr. tauto.
Qed.
(** The proteins collected from the history window. *)
Lemma proteins_to_avoid_spec h d n proteins (p : option string) :
  mapM get_protein (elements (get_close_history_meal_names h d n))
  = Some proteins →
  p ∈ filter (λ p, p ≠ None) proteins
  ↔ ∃ q, p = Some q ∧ protein_eaten_within h d n q.
Proof.
  intros Hproteins. rewrite list_elem_of_filter.
  rewrite (mapM_elem_of _ _ _ p Hproteins). split.
  - intros (Hp & eaten & Hin%elem_of_elements & Heaten).
    destruct p as [q|]; [|done]. exists q. split; [done|].
    apply elem_of_get_close_history_meal_names in Hin as (d' & Hd' & Hle).
    by exists d', eaten.
  - intros (q & -> & d' & eaten & Hle & Hd' & Heaten). split; [done|].
    exists eaten. split; [|done].
    apply elem_of_elements, elem_of_get_close_history_meal_names.
    by exists d'.
Qed.

Lemma not_consecutive_same_protein_kept meals d h r name info :
  not_consecutive_same_protein meals d h = Some r →
  (name, info) ∈ r
  ↔ (name, info) ∈ meals
    ∧ ∀ p, get_protein name = Some (Some p) → ¬ protein_eaten_within h d 1 p.
Proof.
  unfold not_consecutive_same_protein.
  intros (proteins & Hproteins & Hr)%bind_Some.
  apply dict_comprehension_Some in Hr as [Hdef ->].
  rewrite list_elem_of_filter. unfold kept. simpl. split.
  - intros [(p0 & Hp0 & [= Hnot%bool_decide_eq_true])%bind_Some Hin].
    split; [done|]. intros p Hp Heaten. apply Hnot.
    apply (proteins_to_avoid_spec h d 1 proteins); [done|].
    exists p. split; [congruence | done].
  - intros [Hin Hfree]. split; [|done].
    unfold defined_on in Hdef. rewrite list.Forall_forall in Hdef.
    destruct (Hdef _ Hin) as [b Hb]. simpl in Hb.
    apply bind_Some in Hb as (p0 & Hp0 & _). rewrite Hp0. simpl.
    f_equal. apply bool_decide_eq_true.
    intros (q & -> & Heaten)%(proteins_to_avoid_spec h d 1 proteins);
      [|done].
    by apply (Hfree q).
Qed.

(** C3. [not_consecutive_same_protein] removes exactly the candidates whose
    protein category is that of some meal of the history within one day
    (before or after) of the target date, and keeps every candidate with no
    protein category whatever the history. With Chicken Curry (chicken)
    eaten on 2024-01-01 and the target date 2024-01-02, Chicken Fajitas
    (chicken) is removed and Beef Chilli (beef) is kept. *)
Theorem not_consecutive_same_protein_removes_same_protein :
  (∀ meals d h r,
     not_consecutive_same_protein meals d h = Some r →
     r `sublist_of` meals
     ∧ (∀ name info,
          (name, info) ∈ r
          ↔ (name, info) ∈ meals
            ∧ ∀ p, get_protein name = Some (Some p) →
                   ¬ protein_eaten_within h d 1 p)
     ∧ (∀ name info,
          (name, info) ∈ meals → get_protein name = Some None →
          (name, info) ∈ r))
  ∧ @not_consecutive_same_protein Scenario.utils
      [ ("Chicken Fajitas", Scenario.chicken_fajitas);
        ("Beef Chilli", Scenario.beef_chilli) ]
      (ymd2ord 2024 1 2)
      {[ ymd2ord 2024 1 1 := "Chicken Curry" ]}
    = Some [ ("Beef Chilli", Scenario.beef_chilli) ].
Proof.
  split; [|by vm_compute].
  intros meals d h r Hr. split; [|split].
  - apply (narrows_sublist (λ meals, not_consecutive_same_protein meals d h));
      [|done].
    eapply narrows_on_narrows, not_consecutive_same_protein_narrows.
  - intros name info. by apply not_consecutive_same_protein_kept.
  - intros name info Hin Hnone.
    apply (not_consecutive_same_protein_kept meals d h); [done|].
    split; [done|]. intros p Hp. congruence.
Qed.

(** Without history in their window, the rules that consult the history
    keep every candidate. *)
Lemma not_consecutive_same_protein_quiet meals d h :
  no_entry_within h d 1 →
  (∀ r, not_consecutive_same_protein meals d h = Some r → r = meals)
  ∧ (candidates_have_metadata meals →
     not_consecutive_same_protein meals d h = Some meals).
Proof.
  intros Hquiet. unfold not_consecutive_same_protein.
  rewrite (no_entry_within_empty h d 1 1), elements_empty by (done || lia).
  simpl. split.
  - intros r [Hdef ->]%dict_comprehension_Some. apply filter_all.
    unfold defined_on in Hdef. rewrite list.Forall_forall in *.
    intros item Hin. unfold kept. destruct (Hdef item Hin) as [b Hb].
    by apply bind_Some in Hb as (p & -> & _).
  - intros Hmeta. apply dict_comprehension_unchanged.
    unfold candidates_have_metadata in Hmeta. rewrite list.Forall_forall in *.
    intros item Hin. unfold kept.
    by destruct (Hmeta item Hin) as ([p ->] & _).
Qed.

Lemma not_within_seven_days_quiet meals d h :
  no_entry_within h d 7 → not_within_seven_days meals d h = Some meals.
Proof.
  intros Hquiet. unfold not_within_seven_days.
  rewrite (no_entry_within_empty h d 7 7) by (done || lia).
  apply dict_comprehension_unchanged, list.Forall_forall.
  intros item _. unfold kept.
  by rewrite bool_decide_eq_true_2 by apply not_elem_of_empty.
Qed.

Lemma not_non_favourite_within_fourteen_days_quiet meals d h :
  no_entry_within h d 14 →
  (∀ r, not_non_favourite_within_fourteen_days meals d h = Some r → r = meals)
  ∧ (candidates_have_metadata meals →
     not_non_favourite_within_fourteen_days meals d h = Some meals).
Proof.
  intros Hquiet. unfold not_non_favourite_within_fourteen_days.
  rewrite (no_entry_within_empty h d 14 14) by (done || lia).
  assert (∀ name b, is_favourite name = Some b →
            (is_favourite name ≫= λ fav,
               Some (fav || bool_decide (name ∉ (∅ : gset string))))
            = Some true) as Hkeep.
  { intros name b ->.
    rewrite (bool_decide_eq_true_2 (name ∉ (∅ : gset string)))
      by apply not_elem_of_empty.
    simpl. by rewrite orb_true_r. }
  split.
  - intros r [Hdef ->]%dict_comprehension_Some. apply filter_all.
    unfold defined_on in Hdef. rewrite list.Forall_forall in *.
    intros item Hin. unfold kept. destruct (Hdef item Hin) as [b Hb].
    apply bind_Some in Hb as (fav & Hfav & _). by apply (Hkeep _ fav).
  - intros Hmeta. apply dict_comprehension_unchanged.
    unfold candidates_have_metadata in Hmeta. rewrite list.Forall_forall in *.
    intros item Hin. unfold kept.
    destruct (Hmeta item Hin) as (_ & [fav Hfav] & _). by apply (Hkeep _ fav).
Qed.

Lemma not_pasta_within_five_days_quiet meals d h :
  no_entry_within h d 5 → not_pasta_within_five_days meals d h = Some meals.
Proof.
  intros Hquiet. unfold not_pasta_within_five_days.
  by rewrite (no_entry_within_empty h d 5 5), elements_empty by (done || lia).
Qed.

Lemma not_fish_within_seven_days_quiet meals d h :
  no_entry_within h d 7 → not_fish_within_seven_days meals d h = Some meals.
Proof.
  intros Hquiet. unfold not_fish_within_seven_days.
  by rewrite (no_entry_within_empty h d 7 7), elements_empty by (done || lia).
Qed.

Lemma not_lasagne_and_moussaka_within_seven_days_quiet meals d h :
  no_entry_within h d 7 →
  not_lasagne_and_moussaka_within_seven_days meals d h = Some meals.
Proof.
  intros Hquiet. rewrite not_lasagne_and_moussaka_within_seven_days_filter.
  rewrite (no_entry_within_empty h d 7 7) by (done || lia).
  f_equal. apply filter_all, list.Forall_forall. intros item _.
  split; intros [_ []%elem_of_empty].
Qed.

Lemma no_entry_within_le h d n n' :
  n ≤ n' → no_entry_within h d n' → no_entry_within h d n.
Proof. intros Hle Hquiet d' Hd'. apply Hquiet. lia. Qed.

Lemma history_window_rule_quiet
    (rule : list (string * meal_info) → Z → gmap Z string
            → option (list (string * meal_info))) meals d h :
  rule ∈ history_window_rules → no_entry_within h d 14 →
  (∀ r, rule meals d h = Some r → r = meals)
  ∧ (candidates_have_metadata meals → rule meals d h = Some meals).
Proof.
  unfold history_window_rules. rewrite !elem_of_cons, elem_of_nil.
  intros [->|[->|[->|[->|[->|[->|[]]]]]]] Hquiet.
  - apply not_consecutive_same_protein_quiet.
    by apply (no_entry_within_le h d 1 14).
  - rewrite not_within_seven_days_quiet
      by by apply (no_entry_within_le h d 7 14).
    split; [by intros r [= <-] | done].
  - by apply not_non_favourite_within_fourteen_days_quiet.
  - rewrite not_pasta_within_five_days_quiet
      by by apply (no_entry_within_le h d 5 14).
    split; [by intros r [= <-] | done].
  - rewrite not_fish_within_seven_days_quiet
      by by apply (no_entry_within_le h d 7 14).
    split; [by intros r [= <-] | done].
  - rewrite not_lasagne_and_moussaka_within_seven_days_quiet
      by by apply (no_entry_within_le h d 7 14).
    split; [by intros r [= <-] | done].
Qed.
(** With a quiet history the pipeline is the pipeline of the weekday-only
    rules. *)
Lemma quiet_pipeline_is_weekday_pipeline meals d h :
  no_entry_within h d 14 → candidates_have_metadata meals →
  apply_rules rule_catalog meals d h
  = apply_rules weekday_only_rules meals d h.
Proof.
  intros Hquiet Hmeta.
  pose proof (no_entry_within_le h d 1 14 ltac:(lia) Hquiet) as Hq1.
  pose proof (no_entry_within_le h d 5 14 ltac:(lia) Hquiet) as Hq5.
  pose proof (no_entry_within_le h d 7 14 ltac:(lia) Hquiet) as Hq7.
  unfold rule_catalog, weekday_only_rules. simpl.
  rewrite (proj2 (not_consecutive_same_protein_quiet meals d h Hq1) Hmeta).
  simpl. rewrite (not_within_seven_days_quiet meals d h Hq7). simpl.
  rewrite (proj2 (not_non_favourite_within_fourteen_days_quiet meals d h Hquiet)
             Hmeta).
  simpl. rewrite (not_pasta_within_five_days_quiet meals d h Hq5). simpl.
  destruct (force_sunday_roast meals d h) as [m1|]; simpl; [|done].
  destruct (not_roast_on_non_sunday m1 d h) as [m2|]; simpl; [|done].
  rewrite (not_fish_within_seven_days_quiet m2 d h Hq7). simpl.
  destruct (not_time_consuming_on_weekend m2 d h) as [m3|]; simpl; [|done].
  by rewrite (not_lasagne_and_moussaka_within_seven_days_quiet m3 d h Hq7).
Qed.

(** C9. If no history entry lies within any rule's window of the target
    date (the widest window is fourteen days), every rule that consults the
    history window returns its input candidate mapping unchanged: whatever
    it returns is its input, and it does return on candidates that have
    catalog metadata. The pipeline output is then that of the weekday-only
    rules, which still apply. *)
Theorem quiet_history_leaves_candidates_unchanged meals d h :
  no_entry_within h d 14 →
  (∀ rule : list (string * meal_info) → Z → gmap Z string
            → option (list (string * meal_info)),
     rule ∈ history_window_rules →
     (∀ r, rule meals d h = Some r → r = meals)
     ∧ (candidates_have_metadata meals → rule meals d h = Some meals))
  ∧ (candidates_have_metadata meals →
     apply_rules rule_catalog meals d h
     = apply_rules weekday_only_rules meals d h).
Proof.
  intros Hquiet. split.
  - intros rule Hrule. by apply history_window_rule_quiet.
  - by apply quiet_pipeline_is_weekday_pipeline.
Qed.
End Behaviour.

(** ** Ingredient quantities *)

Section IngredientQuantity.
Import Ingredient.
Context {Unit : Type}.
Implicit Types (ingredient unit quantity : value Unit).

Lemma isinstance_Ingredients_true ingredient :
  isinstance_Ingredients ingredient = true
  ↔ ∃ member, ingredient = VIngredients member.
Proof.
  destruct ingredient; simpl; split;
    try discriminate; try (by intros [? [=]]); eauto.
Qed.

Lemma isinstance_Unit_true unit :
  isinstance_Unit unit = true ↔ ∃ u, unit = VUnit u.
Proof.
  destruct unit; simpl; split;
    try discriminate; try (by intros [? [=]]); eauto.
Qed.

(** Every member of the enum is built from a string and a category, so
    the class body of [Ingredients] raises nothing. *)
Lemma Ingredients_value_returns (member : Ingredients) :
  ∃ name category,
    Ingredients_value (Unit := Unit) member
    = Return (VIngredient (VStr name) (VCategory category)).
Proof. destruct member; by eexists _, _. Qed.

(** C10. [IngredientQuantity.__init__] accepts its [ingredient] argument
    only if it is a member of the [Ingredients] enum. For every other value,
    a plain [Ingredient] instance included, it raises [TypeError] and
    produces no object. When the ingredient is a member of [Ingredients]
    and the unit is a [Unit], the attributes of the constructed object are
    the three arguments. *)
Theorem IngredientQuantity_init_requires_enum_member
    ingredient unit quantity :
  ((∀ member, ingredient ≠ VIngredients member) →
   IngredientQuantity_init ingredient unit quantity
   = Raise (TypeError
       "'ingredient' argument must be in the Ingredients enum in IngredientQuantity init"))
  ∧ (∀ name category,
       IngredientQuantity_init (VIngredient name category) unit quantity
       = Raise (TypeError
           "'ingredient' argument must be in the Ingredients enum in IngredientQuantity init"))
  ∧ (∀ member u,
       ingredient = VIngredients member → unit = VUnit u →
       ∃ obj, IngredientQuantity_init ingredient unit quantity = Return obj
              ∧ Ingredient.ingredient obj = ingredient
              ∧ Ingredient.unit obj = unit
              ∧ Ingredient.quantity obj = quantity).
Proof.
  split; [|split].
  - intros Hnot. unfold IngredientQuantity_init.
    destruct ingredient; try done. by destruct (Hnot member).
  - done.
  - intros member u -> ->. by eexists.
Qed.
End IngredientQuantity.

(** * The properties on the scenarios *)

Section Scenarios.
Import Scenario.
Local Existing Instance utils.

Ltac in_catalog := repeat constructor.
Ltac metadata :=
  repeat first [apply Forall_nil | apply List.Forall_cons | split];
  eexists; vm_compute; reflexivity.

Lemma fajitas_and_chilli_have_metadata :
  candidates_have_metadata fajitas_and_chilli.
Proof. metadata. Defined.

Lemma curry_on_new_year_is_history_of_meals :
  history_of_meals curry_on_new_year.
Proof.
  intros d name Hd. unfold curry_on_new_year in Hd.
  apply lookup_singleton_Some in Hd as [_ <-]. metadata.
Defined.

Lemma rule_result_keys_subset_witness :
  keys [("Beef Chilli", beef_chilli)] ⊆ keys fajitas_and_chilli
  ∧ [("Beef Chilli", beef_chilli)] `sublist_of` fajitas_and_chilli.
Proof.
  apply (rule_result_keys_subset not_consecutive_same_protein
           fajitas_and_chilli (ymd2ord 2024 1 2) curry_on_new_year).
  - in_catalog.
  - vm_compute. reflexivity.
Defined.

Lemma rule_idempotent_witness :
  not_consecutive_same_protein [("Beef Chilli", beef_chilli)]
    (ymd2ord 2024 1 2) curry_on_new_year
  = Some [("Beef Chilli", beef_chilli)].
Proof.
  apply (proj1 (rule_idempotent not_consecutive_same_protein
                  fajitas_and_chilli (ymd2ord 2024 1 2) curry_on_new_year
                  ltac:(in_catalog))).
  vm_compute. reflexivity.
Defined.

Lemma rule_application_commutes_witness :
  apply_rules [not_consecutive_same_protein; not_roast_on_non_sunday]
    fajitas_and_chilli (ymd2ord 2024 1 2) curry_on_new_year
  = apply_rules [not_roast_on_non_sunday; not_consecutive_same_protein]
      fajitas_and_chilli (ymd2ord 2024 1 2) curry_on_new_year.
Proof.
  apply (proj2 (rule_application_commutes fajitas_and_chilli
                  (ymd2ord 2024 1 2) curry_on_new_year)).
  - repeat first [apply Forall_nil | apply List.Forall_cons]; in_catalog.
  - apply perm_swap.
  - apply fajitas_and_chilli_have_metadata.
Defined.

Lemma rules_never_raise_on_valid_input_witness :
  (∃ r, force_sunday_roast fajitas_and_chilli
          (ymd2ord 2024 1 7) curry_on_new_year = Some r)
  ∧ force_sunday_roast fajitas_and_chilli
      (ymd2ord 2024 1 7) curry_on_new_year = Some [].
Proof.
  destruct (rules_never_raise_on_valid_input force_sunday_roast
              fajitas_and_chilli (ymd2ord 2024 1 7) curry_on_new_year)
    as [Hreturns Hempty].
  - in_catalog.
  - apply fajitas_and_chilli_have_metadata.
  - apply curry_on_new_year_is_history_of_meals.
  - split; [exact Hreturns|]. apply Hempty; [reflexivity|].
    repeat constructor.
Defined.

Lemma not_consecutive_same_protein_removes_same_protein_witness :
  ("Chicken Fajitas", chicken_fajitas)
    ∉ [("Beef Chilli", beef_chilli)].
Proof.
  destruct not_consecutive_same_protein_removes_same_protein
    as [Hgeneral Hscenario].
  destruct (Hgeneral _ _ _ _ Hscenario) as (_ & Hkept & _).
  intros Hin. apply Hkept in Hin as [_ Hfree].
  apply (Hfree "chicken"); [reflexivity|].
  exists (ymd2ord 2024 1 1), "Chicken Curry".
  split; [|split]; [|reflexivity..].
  assert (ymd2ord 2024 1 1 = 738886) as -> by reflexivity.
  assert (ymd2ord 2024 1 2 = 738887) as -> by reflexivity. lia.
Defined.

Lemma roast_policies_exclusive_and_exhaustive_witness :
  force_sunday_roast roast_and_stir_fry (ymd2ord 2024 1 7) ∅
  = Some [("Roast Chicken", roast_chicken)]
  ∧ not_roast_on_non_sunday roast_and_stir_fry (ymd2ord 2024 1 7) ∅
    = Some roast_and_stir_fry.
Proof.
  destruct (roast_policies_exclusive_and_exhaustive (ymd2ord 2024 1 7))
    as [(_ & Hoff & Hforce) | (Hne & _)].
  - split; [|apply Hoff]. apply Hforce. split; [|reflexivity].
    repeat constructor; eexists; vm_compute; reflexivity.
  - exfalso. apply Hne. reflexivity.
Defined.

Lemma lasagne_and_moussaka_exclude_each_other_witness :
  ∃ r, not_lasagne_and_moussaka_within_seven_days lasagne_moussaka_chilli
         (ymd2ord 2024 1 10) moussaka_then_lasagne = Some r
       ∧ ∀ name info, (name, info) ∈ r
           ↔ (name, info) ∈ lasagne_moussaka_chilli
             ∧ name ≠ "Lasagne" ∧ name ≠ "Moussaka".
Proof.
  destruct (lasagne_and_moussaka_exclude_each_other lasagne_moussaka_chilli
              (ymd2ord 2024 1 10) moussaka_then_lasagne)
    as (r & Hr & _ & _ & _ & _ & Hboth).
  exists r. split; [done|]. apply Hboth.
  - exists (ymd2ord 2024 1 7). split; [|reflexivity].
    assert (ymd2ord 2024 1 7 = 738892) as -> by reflexivity.
    assert (ymd2ord 2024 1 10 = 738895) as -> by reflexivity. lia.
  - exists (ymd2ord 2024 1 12). split; [|reflexivity].
    assert (ymd2ord 2024 1 12 = 738897) as -> by reflexivity.
    assert (ymd2ord 2024 1 10 = 738895) as -> by reflexivity. lia.
Defined.

Lemma curry_on_new_year_quiet_in_february :
  no_entry_within curry_on_new_year (ymd2ord 2024 2 1) 14.
Proof.
  intros d' Hd'. unfold curry_on_new_year.
  apply lookup_singleton_ne. intros <-.
  assert (ymd2ord 2024 1 1 = 738886) as E1 by reflexivity.
  assert (ymd2ord 2024 2 1 = 738917) as E2 by reflexivity.
  rewrite E1, E2 in Hd'. lia.
Defined.

Lemma quiet_history_leaves_candidates_unchanged_witness :
  not_consecutive_same_protein fajitas_and_chilli
    (ymd2ord 2024 2 1) curry_on_new_year
  = Some fajitas_and_chilli.
Proof.
  apply (proj1 (quiet_history_leaves_candidates_unchanged fajitas_and_chilli
                  (ymd2ord 2024 2 1) curry_on_new_year
                  curry_on_new_year_quiet_in_february)).
  - in_catalog.
  - apply fajitas_and_chilli_have_metadata.
Defined.

Lemma IngredientQuantity_init_requires_enum_member_witness :
  ∃ obj,
    Ingredient.IngredientQuantity_init (Unit := string)
      (Ingredient.VIngredients Ingredient.RICE)
      (Ingredient.VUnit "GRAM") (Ingredient.VInt 200)
    = Ingredient.Return obj
    ∧ Ingredient.ingredient obj = Ingredient.VIngredients Ingredient.RICE
    ∧ Ingredient.unit obj = Ingredient.VUnit "GRAM"
    ∧ Ingredient.quantity obj = Ingredient.VInt 200.
Proof.
  apply (proj2 (proj2 (IngredientQuantity_init_requires_enum_member
                         (Ingredient.VIngredients Ingredient.RICE)
                         (Ingredient.VUnit "GRAM") (Ingredient.VInt 200)))
           Ingredient.RICE "GRAM"); reflexivity.
Defined.
End Scenarios.

(** * Further properties of the code *)

(** ** More on the rules of [archive/rules.py] *)

(** [any(flags)] holds when some accessor call returned [True]. *)
Lemma any_mapM (f : string → option bool) (l : list string) flags :
  mapM f l = Some flags →
  any flags = true ↔ ∃ name, name ∈ l ∧ f name = Some true.
Proof.
  intros Hflags. unfold any. rewrite existsb_exists.
  setoid_rewrite <-list_elem_of_In.
  rewrite <-(mapM_elem_of f l flags true Hflags).
  split; [by intros ([] & ? & ?) | intros ?; by exists true].
Qed.

(** The shape shared by the pasta and the fish rules: look the attribute up
    on every name of the window, and only if one of them has it, on every
    candidate. *)
Lemma cooldown_behaviour (f : string → option bool) (names : gset string)
    (meals : list (string * meal_info)) :
  let result :=
    flags ← mapM f (elements names);
    if any flags then dict_comprehension (λ name, negb <$> f name) meals
    else Some meals in
  ((∃ name, name ∈ names ∧ f name = None) → result = None)
  ∧ ((∀ name, name ∈ names → f name = Some false) → result = Some meals)
  ∧ ((∀ name, name ∈ names → is_Some (f name)) →
     (∃ name, name ∈ names ∧ f name = Some true) →
     ∀ r, result = Some r
          ↔ defined_on f meals
            ∧ r = filter (λ item, f item.1 = Some false) meals).
Proof.
  intros result. subst result. split; [|split].
  - intros (name & Hin & Hnone).
    rewrite (mapM_None_2 f (elements names)); [done|].
    apply Exists_exists. exists name. split; [|done].
    by apply list_elem_of_In, elem_of_elements.
  - intros Hfalse.
    destruct (mapM f (elements names)) as [flags|] eqn:Hflags.
    + simpl. destruct (any flags) eqn:Hany; [|done].
      apply (any_mapM f _ _ Hflags) in Hany as (name & Hin%elem_of_elements & Ht).
      rewrite (Hfalse name Hin) in Ht. done.
    + apply mapM_None_1, Exists_exists in Hflags as (name & Hin & Hnone).
      apply list_elem_of_In, elem_of_elements in Hin.
      rewrite (Hfalse name Hin) in Hnone. done.
  - intros Hdefined (name & Hin & Htrue) r.
    destruct (mapM f (elements names)) as [flags|] eqn:Hflags.
    + simpl. rewrite (proj2 (any_mapM f _ _ Hflags)).
      2:{ exists name. by rewrite elem_of_elements. }
      rewrite dict_comprehension_Some.
      assert (defined_on (λ name, negb <$> f name) meals ↔ defined_on f meals)
        as ->.
      { unfold defined_on. apply Forall_proper; [|done].
        intros item. by rewrite fmap_is_Some. }
      assert (filter (kept (λ name, negb <$> f name)) meals
              = filter (λ item, f item.1 = Some false) meals) as ->; [|done].
      apply list_filter_iff. intros item. unfold kept.
      destruct (f item.1) as [[|]|]; simpl; split; congruence.
    + apply mapM_None_1, Exists_exists in Hflags as (name' & Hin' & Hnone).
      apply list_elem_of_In, elem_of_elements in Hin'.
      destruct (Hdefined name' Hin') as [b Hb]. congruence.
Qed.

Section MoreBehaviour.
Context `{MealUtils}.
Implicit Types (meals r : list (string * meal_info)) (d : Z) (h : gmap Z string).

(** X1. [not_within_seven_days] calls no accessor: it never raises, whatever
    the candidates and the history are, and returns the candidates whose
    name is not among the history names of the seven-day window, favourites
    included. *)
Theorem not_within_seven_days_never_raises meals d h :
  not_within_seven_days meals d h
  = Some (filter (λ item, item.1 ∉ get_close_history_meal_names h d 7) meals).
Proof.
  unfold not_within_seven_days.
  erewrite dict_comprehension_total by done.
  f_equal. apply list_filter_iff. intros item. apply bool_decide_eq_true.
Qed.

(** X2. [not_non_favourite_within_fourteen_days] looks [is_favourite] up on
    every candidate and on nothing else: it returns exactly when that
    lookup returns on every candidate, and then keeps the favourites and
    the candidates whose name is not among the history names of the
    fourteen-day window. *)
Theorem not_non_favourite_within_fourteen_days_spares_favourites
    meals d h r :
  not_non_favourite_within_fourteen_days meals d h = Some r
  ↔ Forall (λ item, is_Some (is_favourite item.1)) meals
    ∧ r = filter
            (λ item, is_favourite item.1 = Some true
                     ∨ (is_favourite item.1 = Some false
                        ∧ item.1 ∉ get_close_history_meal_names h d 14))
            meals.
Proof.
  unfold not_non_favourite_within_fourteen_days.
  rewrite dict_comprehension_Some.
  assert (∀ l, defined_on
            (λ name, fav ← is_favourite name;
               Some (fav || bool_decide
                       (name ∉ get_close_history_meal_names h d 14))) l
          ↔ Forall (λ item, is_Some (is_favourite item.1)) l) as ->.
  { intros l. unfold defined_on. apply Forall_proper; [|done].
    intros item. destruct (is_favourite item.1); simpl;
      split; intros [? ?]; by eauto. }
  assert (filter (kept (λ name, fav ← is_favourite name;
                          Some (fav || bool_decide
                            (name ∉ get_close_history_meal_names h d 14))))
            meals
          = filter
              (λ item, is_favourite item.1 = Some true
                       ∨ (is_favourite item.1 = Some false
                          ∧ item.1 ∉ get_close_history_meal_names h d 14))
              meals) as ->; [|done].
  apply list_filter_iff. intros item. unfold kept.
  destruct (is_favourite item.1) as [[|]|]; simpl.
  - split; [by left | done].
  - rewrite (inj_iff Some), bool_decide_eq_true. split; [by right|].
    by intros [|[_ ?]].
  - split; [done | by intros [|[? _]]].
Qed.

(** X3. [not_pasta_within_five_days] looks [is_pasta] up on every history name
    of the five-day window, and so raises if one of the lookups does. If
    none of those meals is pasta the candidates are returned as they are,
    without any lookup on them. If one is, [is_pasta] is looked up on every
    candidate and the candidates that are not pasta are returned. *)
Theorem not_pasta_within_five_days_behaviour meals d h :
  ((∃ name, name ∈ get_close_history_meal_names h d 5 ∧ is_pasta name = None) →
   not_pasta_within_five_days meals d h = None)
  ∧ ((∀ name, name ∈ get_close_history_meal_names h d 5 →
              is_pasta name = Some false) →
     not_pasta_within_five_days meals d h = Some meals)
  ∧ ((∀ name, name ∈ get_close_history_meal_names h d 5 →
              is_Some (is_pasta name)) →
     (∃ name, name ∈ get_close_history_meal_names h d 5
              ∧ is_pasta name = Some true) →
     ∀ r, not_pasta_within_five_days meals d h = Some r
          ↔ defined_on is_pasta meals
            ∧ r = filter (λ item, is_pasta item.1 = Some false) meals).
Proof.
  apply (cooldown_behaviour is_pasta (get_close_history_meal_names h d 5)).
Qed.

(** X4. [not_fish_within_seven_days] behaves in the same way with [is_fish]
    and the seven-day window. *)
Theorem not_fish_within_seven_days_behaviour meals d h :
  ((∃ name, name ∈ get_close_history_meal_names h d 7 ∧ is_fish name = None) →
   not_fish_within_seven_days meals d h = None)
  ∧ ((∀ name, name ∈ get_close_history_meal_names h d 7 →
              is_fish name = Some false) →
     not_fish_within_seven_days meals d h = Some meals)
  ∧ ((∀ name, name ∈ get_close_history_meal_names h d 7 →
              is_Some (is_fish name)) →
     (∃ name, name ∈ get_close_history_meal_names h d 7
              ∧ is_fish name = Some true) →
     ∀ r, not_fish_within_seven_days meals d h = Some r
          ↔ defined_on is_fish meals
            ∧ r = filter (λ item, is_fish item.1 = Some false) meals).
Proof.
  apply (cooldown_behaviour is_fish (get_close_history_meal_names h d 7)).
Qed.

(** X5. [not_time_consuming_on_weekend]: on a Saturday or a Sunday (weekday 5
    or 6) the candidates that are not time-consuming are returned, after a
    lookup on each candidate; on the other days the candidates are returned
    as they are, without any lookup. *)
Theorem not_time_consuming_on_weekend_behaviour meals d h :
  (weekday d = 5 ∨ weekday d = 6 →
   ∀ r, not_time_consuming_on_weekend meals d h = Some r
        ↔ defined_on is_time_consuming meals
          ∧ r = filter (λ item, is_time_consuming item.1 = Some false) meals)
  ∧ (weekday d ≠ 5 → weekday d ≠ 6 →
     not_time_consuming_on_weekend meals d h = Some meals).
Proof.
  unfold not_time_consuming_on_weekend. split.
  - intros Hweekend r. rewrite bool_decide_eq_false_2.
    2:{ intros Hnot. apply Hnot. rewrite !elem_of_cons. tauto. }
    rewrite dict_comprehension_Some.
    assert (defined_on (λ name, negb <$> is_time_consuming name) meals
            ↔ defined_on is_time_consuming meals) as ->.
    { unfold defined_on. apply Forall_proper; [|done].
      intros item. by rewrite fmap_is_Some. }
    assert (filter (kept (λ name, negb <$> is_time_consuming name)) meals
            = filter (λ item, is_time_consuming item.1 = Some false) meals)
      as ->; [|done].
    apply list_filter_iff. intros item. unfold kept.
    destruct (is_time_consuming item.1) as [[|]|]; simpl; split; congruence.
  - intros H5 H6. rewrite bool_decide_eq_true_2; [done|].
    rewrite !elem_of_cons, elem_of_nil. tauto.
Qed.

(** X6. [not_consecutive_same_protein] returns exactly when [get_protein]
    returns on every history name of the one-day window and on every
    candidate; in particular a candidate without metadata makes it raise
    even when the window is empty. *)
Theorem not_consecutive_same_protein_returns_iff meals d h :
  is_Some (not_consecutive_same_protein meals d h)
  ↔ (∀ name, name ∈ get_close_history_meal_names h d 1 →
             is_Some (get_protein name))
    ∧ Forall (λ item, is_Some (get_protein item.1)) meals.
Proof.
  unfold not_consecutive_same_protein.
  set (names := get_close_history_meal_names h d 1).
  assert (is_Some (mapM get_protein (elements names))
          ↔ ∀ name, name ∈ names → is_Some (get_protein name)) as Hwindow.
  { rewrite mapM_is_Some, list.Forall_forall.
    by setoid_rewrite elem_of_elements. }
  rewrite <-Hwindow.
  destruct (mapM get_protein (elements names)) as [proteins|]; simpl.
  - split.
    + intros [r [Hdef _]%dict_comprehension_Some]. split; [by eexists|].
      unfold defined_on in Hdef. eapply Forall_impl; [|exact Hdef].
      intros item [b (p & -> & _)%bind_Some]. by eexists.
    + intros [_ Hall]. apply dict_comprehension_is_Some. unfold defined_on.
      eapply Forall_impl; [|exact Hall]. intros item [p ->]. by eexists.
  - split; [by intros [? ?] | by intros [[? ?] _]].
Qed.

(** X7. Whether a rule keeps a candidate does not depend on the other
    candidates: a candidate kept out of one candidate mapping is kept out
    of any other mapping that contains it, for the same date and
    history. *)
Theorem rule_decides_each_candidate_alone
    (rule : list (string * meal_info) → Z → gmap Z string
            → option (list (string * meal_info)))
    meals meals' d h r r' item :
  rule ∈ rule_catalog →
  rule meals d h = Some r → rule meals' d h = Some r' →
  item ∈ r → item ∈ meals' → item ∈ r'.
Proof.
  intros Hrule Hr Hr' Hin Hin'.
  pose proof (rule_catalog_narrows rule d h Hrule) as Hnarrows.
  destruct (narrows_filter (λ meals, rule meals d h) meals r Hnarrows Hr)
    as (keep & Hkeep & _ & ->).
  rewrite Hkeep in Hr'. apply dict_comprehension_Some in Hr' as [_ ->].
  apply list_elem_of_filter in Hin as [Hkept _].
  by apply list_elem_of_filter.
Qed.

(** X8. A candidate that is not a favourite and survives the fourteen-day rule
    also survives the seven-day rule. *)
Theorem fourteen_day_survivors_pass_seven_days meals d h r name info :
  not_non_favourite_within_fourteen_days meals d h = Some r →
  (name, info) ∈ r → is_favourite name = Some false →
  ∃ r7, not_within_seven_days r d h = Some r7 ∧ (name, info) ∈ r7.
Proof.
  unfold not_non_favourite_within_fourteen_days.
  intros [_ ->]%dict_comprehension_Some [Hkept Hin]%list_elem_of_filter Hfav.
  eexists. unfold not_within_seven_days.
  split; [by erewrite dict_comprehension_total|].
  apply list_elem_of_filter. split; [|by apply list_elem_of_filter].
  simpl. apply bool_decide_eq_true. unfold kept in Hkept. simpl in Hkept.
  rewrite Hfav in Hkept. simpl in Hkept.
  injection Hkept as Hkept%bool_decide_eq_true.
  intros Hin7. apply Hkept.
  revert Hin7. apply get_close_history_meal_names_mono. lia.
Qed.
End MoreBehaviour.

(** ** The constructors of [ingredient.py] *)

Section Constructors.
Import Ingredient Collection.
Context {Unit : Type}.
Implicit Types (name category ingredient unit quantity : value Unit).

(** X9. [Ingredient.__init__] returns exactly when the name is a string and the
    category a [Category], and the object then holds the two arguments. The
    name is checked first: a name that is not a string raises the error
    about the name whatever the category is. *)
Theorem Ingredient_init_checks_name_then_category name category :
  (∀ obj, Ingredient_init name category = Return obj
          ↔ isinstance_str name = true
            ∧ isinstance_Category category = true
            ∧ obj = VIngredient name category)
  ∧ (isinstance_str name = false →
     Ingredient_init name category
     = Raise (TypeError "'name' argument must be a string in Ingredient init"))
  ∧ (isinstance_str name = true → isinstance_Category category = false →
     Ingredient_init name category
     = Raise (TypeError
         "'category' argument must be a Category in Ingredient init")).
Proof.
  unfold Ingredient_init.
  destruct (isinstance_str name), (isinstance_Category category); simpl;
    (split; [|split]); try done;
    intros obj; split; try done; try (by intros (? & ? & ?));
    try (by intros [= <-]). by intros (_ & _ & ->).
Qed.

(** X10. [IngredientQuantity.__init__] returns exactly when the ingredient is a
    member of [Ingredients] and the unit a [Unit]. The ingredient is checked
    first; with a valid ingredient, a unit that is not a [Unit] raises the
    error about the unit. *)
Theorem IngredientQuantity_init_checks_ingredient_then_unit
    ingredient unit quantity :
  (∀ obj, IngredientQuantity_init ingredient unit quantity = Return obj
          ↔ isinstance_Ingredients ingredient = true
            ∧ isinstance_Unit unit = true
            ∧ obj = {| Ingredient.ingredient := ingredient;
                       Ingredient.unit := unit;
                       Ingredient.quantity := quantity |})
  ∧ (isinstance_Ingredients ingredient = false →
     IngredientQuantity_init ingredient unit quantity
     = Raise (TypeError
         "'ingredient' argument must be in the Ingredients enum in IngredientQuantity init"))
  ∧ (isinstance_Ingredients ingredient = true → isinstance_Unit unit = false →
     IngredientQuantity_init ingredient unit quantity
     = Raise (TypeError
         "'unit' argument must be a Unit in IngredientQuantity init")).
Proof.
  unfold IngredientQuantity_init.
  destruct (isinstance_Ingredients ingredient), (isinstance_Unit unit); simpl;
    (split; [|split]); try done;
    intros obj; split; try done; try (by intros (? & ? & ?));
    try (by intros [= <-]). by intros (_ & _ & ->).
Qed.

Section Collections.
Context (format : element Unit → string).

Lemma check_elements_Return (xs : list (element Unit)) :
  check_elements format xs = Return ()
  ↔ Forall (λ x, isinstance_IngredientQuantity x = true) xs.
Proof.
  induction xs as [|x xs IH]; simpl.
  - split; [constructor | done].
  - rewrite Forall_cons_iff, <-IH.
    destruct (isinstance_IngredientQuantity x); simpl; split; try done.
    + by intros [_ ?].
    + by intros [? _].
Qed.

Lemma check_elements_Raise (before after : list (element Unit)) x :
  Forall (λ x, isinstance_IngredientQuantity x = true) before →
  isinstance_IngredientQuantity x = false →
  check_elements format (before ++ x :: after)
  = Raise (TypeError
      (format x +:+
       " is not an IngredientQuantity in IngredientQuantityCollection init")).
Proof.
  intros Hbefore Hx. induction Hbefore as [|y before Hy _ IH]; simpl.
  - by rewrite Hx.
  - by rewrite Hy.
Qed.

(** X11. [IngredientQuantityCollection.__init__] returns exactly when every
    element is an [IngredientQuantity]; the collection then holds the
    elements as they came, in order (none when the iterable is empty).
    Otherwise it raises [TypeError] for the first element that is not an
    [IngredientQuantity]. *)
Theorem IngredientQuantityCollection_init_accepts_only_quantities
    (iterable : list (element Unit)) :
  (∀ c, IngredientQuantityCollection_init format iterable = Return c
        ↔ Forall (λ x, isinstance_IngredientQuantity x = true) iterable
          ∧ ingredient_quantities c = iterable)
  ∧ (∀ before x after,
       iterable = before ++ x :: after →
       Forall (λ x, isinstance_IngredientQuantity x = true) before →
       isinstance_IngredientQuantity x = false →
       IngredientQuantityCollection_init format iterable
       = Raise (TypeError
           (format x +:+
            " is not an IngredientQuantity in IngredientQuantityCollection init"))).
Proof.
  unfold IngredientQuantityCollection_init. simpl. split.
  - intros [items]. simpl. rewrite <-check_elements_Return.
    destruct (check_elements format iterable) as [[]|e]; split; try done.
    + by intros [= ->].
    + by intros [_ ->].
    + by intros [? _].
  - intros before x after -> Hbefore Hx.
    by rewrite check_elements_Raise.
Qed.
End Collections.

(** X12. Every member of [Ingredients] has a value built without raising, and
    no two members share a name. *)
Theorem Ingredients_names_distinct :
  (∀ member, ∃ (label : string) (cat : Category),
     Ingredients_value (Unit := Unit) member
     = Return (VIngredient (VStr label) (VCategory cat)))
  ∧ (∀ member1 member2 (label : string) (cat1 cat2 : value Unit),
       Ingredients_value (Unit := Unit) member1
       = Return (VIngredient (VStr label) cat1) →
       Ingredients_value (Unit := Unit) member2
       = Return (VIngredient (VStr label) cat2) →
       member1 = member2).
Proof.
  split; [intros member; destruct member; by eexists _, _|].
  intros member1 member2 label c1 c2 H1 H2.
  destruct member1; injection H1 as <- _;
    destruct member2; first [reflexivity | discriminate H2].
Qed.
End Constructors.

(** ** The printed window of [remove_dates_from_diary.py] *)

Section PrintedWindow.
Import RemoveDates.
Implicit Types (dates l : list Z) (today m : Z).

Lemma sorted_Permutation l : sorted l ≡ₚ l.
Proof. apply sorting.merge_sort_Permutation. Qed.

Lemma sorted_StronglySorted l : Sorted.StronglySorted Z.le (sorted l).
Proof. apply sorting.StronglySorted_merge_sort; apply _. Qed.

Lemma elem_of_previous_dates dates today x :
  x ∈ previous_dates dates today ↔ x ∈ dates ∧ x < today.
Proof.
  unfold previous_dates. rewrite sorted_Permutation, list_elem_of_filter. tauto.
Qed.

Lemma elem_of_next_dates dates today x :
  x ∈ next_dates dates today ↔ x ∈ dates ∧ today ≤ x.
Proof.
  unfold next_dates. rewrite sorted_Permutation, list_elem_of_filter. tauto.
Qed.

(** An element of a sorted list splits it into what is not above it and
    what is not below it. *)
Lemma sorted_lookup_split l (j : nat) m :
  Sorted.StronglySorted Z.le l → l !! j = Some m →
  ∃ before after,
    l = before ++ m :: after
    ∧ length before = j
    ∧ (∀ x, x ∈ before → x ≤ m)
    ∧ (∀ x, x ∈ after → m ≤ x).
Proof.
  intros Hsorted Hj. exists (take j l), (drop (S j) l).
  pose proof (take_drop_middle l j m Hj) as Hsplit.
  split; [done|]. split.
  { apply length_take_le. apply lookup_lt_Some in Hj. lia. }
  rewrite <-Hsplit in Hsorted. split.
  - intros x Hx.
    apply (sorting.StronglySorted_app_1_elem_of _ _ _ _ _ Hsorted Hx).
    constructor.
  - intros x Hx. apply sorting.StronglySorted_app_1_r in Hsorted.
    apply sorting.StronglySorted_cons in Hsorted as [Hall _].
    rewrite list.Forall_forall in Hall. by apply Hall.
Qed.

Lemma nil_iff_no_elem l : l = [] ↔ ∀ x, x ∉ l.
Proof.
  split.
  - intros -> x. apply not_elem_of_nil.
  - destruct l as [|x l]; [reflexivity|]. intros Hno. destruct (Hno x).
    constructor.
Qed.

(** [previous_dates[-(n - 1)]] with [n = min(len(previous_dates), 15)]. *)
Lemma getitem_from_end {A} (l : list A) :
  let n := Z.min (Z.of_nat (length l)) 15 in
  getitem l (- (n - 1))
  = match l with
    | [] => None
    | _ :: _ => l !! (length l - Z.to_nat (Z.max 1 (n - 1)))%nat
    end.
Proof.
  intros n. unfold getitem. destruct l as [|x l].
  - reflexivity.
  - subst n. set (k := length (x :: l)).
    assert (1 ≤ k)%nat by (unfold k; simpl; lia).
    destruct (decide (k = 1%nat)) as [Hk|Hk].
    + rewrite Hk. simpl. unfold k in Hk. simpl in Hk.
      destruct l; [reflexivity | simpl in Hk; lia].
    + rewrite bool_decide_eq_false_2 by lia.
      rewrite bool_decide_eq_true_2 by lia. f_equal. lia.
Qed.

Lemma min_printed_date_None dates today :
  min_printed_date dates today = None ↔ ∀ x, x ∈ dates → today ≤ x.
Proof.
  unfold min_printed_date, n_previous_dates_printed,
    MAX_PRINTED_PREVIOUS_DIARY_ENTRIES.
  rewrite getitem_from_end.
  assert (previous_dates dates today = [] ↔ ∀ x, x ∈ dates → today ≤ x)
    as <-.
  { rewrite nil_iff_no_elem. split.
    - intros Hno x Hin. destruct (decide (today ≤ x)); [done|].
      destruct (Hno x). apply elem_of_previous_dates. split; [done|lia].
    - intros Hall x [Hin Hlt]%elem_of_previous_dates.
      specialize (Hall x Hin). lia. }
  destruct (previous_dates dates today) as [|x l] eqn:Hl; [done|].
  split; [|done]. intros Hnone%lookup_ge_None. simpl in Hnone. lia.
Qed.

Lemma max_printed_date_returns dates today :
  ∃ result, max_printed_date dates today = Some result
            ∧ (result = None ↔ next_dates dates today = [])
            ∧ ∀ m, result = Some m →
                   next_dates dates today
                     !! (Z.to_nat (n_next_dates_printed dates today) - 1)%nat
                   = Some m.
Proof.
  unfold max_printed_date, n_next_dates_printed,
    MAX_PRINTED_NEXT_DIARY_ENTRIES, getitem.
  destruct (next_dates dates today) as [|x l] eqn:Hl.
  - exists None. by repeat split.
  - set (k := length (x :: l)).
    assert (1 ≤ k)%nat by (unfold k; simpl; lia).
    rewrite bool_decide_eq_true_2 by lia.
    destruct (lookup_lt_is_Some_2 (x :: l)
                (Z.to_nat (Z.min (Z.of_nat k) 5 - 1))) as [m Hm].
    { fold k. lia. }
    rewrite Hm. exists (Some m). split; [done|]. split; [by split|].
    intros m' [= <-]. rewrite <-Hm. f_equal. lia.
Qed.

(** X13. The window computation raises [IndexError] exactly when the diary has
    no date before today; future dates never make it raise. *)
Theorem printed_window_raises_iff_no_previous_date dates today :
  printed_window dates today = None ↔ ∀ x, x ∈ dates → today ≤ x.
Proof.
  rewrite <-min_printed_date_None. unfold printed_window.
  destruct (max_printed_date_returns dates today) as (result & -> & _).
  destruct (min_printed_date dates today); simpl; split; congruence.
Qed.

(** X14. [min_printed_date] is a diary date before today; the sorted previous
    dates from it on are [max(1, n - 1)] many, where [n] is the smaller of
    their number and fifteen, so never more than fourteen. *)
Theorem min_printed_date_position dates today m :
  min_printed_date dates today = Some m →
  ∃ older shown,
    previous_dates dates today = older ++ m :: shown
    ∧ Z.of_nat (length (m :: shown))
      = Z.max 1 (n_previous_dates_printed dates today - 1)
    ∧ (length (m :: shown) ≤ 14)%nat
    ∧ (∀ x, x ∈ older → x ≤ m)
    ∧ (∀ x, x ∈ shown → m ≤ x)
    ∧ m ∈ dates ∧ m < today.
Proof.
  unfold min_printed_date, n_previous_dates_printed,
    MAX_PRINTED_PREVIOUS_DIARY_ENTRIES.
  rewrite getitem_from_end.
  destruct (previous_dates dates today) as [|x l] eqn:Hl; [done|].
  rewrite <-Hl. intros Hm.
  assert (1 ≤ length (previous_dates dates today))%nat
    by (rewrite Hl; simpl; lia).
  destruct (sorted_lookup_split _ _ _ (sorted_StronglySorted _) Hm)
    as (older & shown & Hsplit & Hlen & Hbelow & Habove).
  exists older, shown. unfold previous_dates at 1. rewrite Hsplit.
  assert (length (previous_dates dates today)
          = (length older + length (m :: shown))%nat) as Hsum.
  { unfold previous_dates. rewrite Hsplit at 1. by rewrite length_app. }
  split; [done|]. split; [lia|]. split; [lia|]. split; [done|].
  split; [done|]. apply elem_of_previous_dates.
  unfold previous_dates. rewrite Hsplit. apply elem_of_app. right. constructor.
Qed.

(** X15. [max_printed_date] never raises. It is [None] exactly when the diary
    has no date from today on; otherwise it is the last of the first [n]
    sorted dates from today on, where [n] is the smaller of their number
    and five. *)
Theorem max_printed_date_position dates today :
  ∃ result,
    max_printed_date dates today = Some result
    ∧ (result = None ↔ ∀ x, x ∈ dates → x < today)
    ∧ ∀ m, result = Some m →
        ∃ shown later,
          next_dates dates today = shown ++ m :: later
          ∧ Z.of_nat (length (shown ++ [m]))
            = n_next_dates_printed dates today
          ∧ (length (shown ++ [m]) ≤ 5)%nat
          ∧ (∀ x, x ∈ shown → x ≤ m)
          ∧ (∀ x, x ∈ later → m ≤ x)
          ∧ m ∈ dates ∧ today ≤ m.
Proof.
  destruct (max_printed_date_returns dates today)
    as (result & Hresult & Hnone & Hsome).
  exists result. split; [done|]. split.
  - rewrite Hnone, nil_iff_no_elem. split.
    + intros Hno x Hin. destruct (decide (x < today)); [done|].
      destruct (Hno x). apply elem_of_next_dates. split; [done|lia].
    + intros Hall x [Hin Hle]%elem_of_next_dates.
      specialize (Hall x Hin). lia.
  - intros m Hm%Hsome.
    destruct (sorted_lookup_split _ _ _ (sorted_StronglySorted _) Hm)
      as (shown & later & Hsplit & Hlen & Hbelow & Habove).
    exists shown, later. unfold next_dates at 1. rewrite Hsplit.
    pose proof (lookup_lt_Some _ _ _ Hm) as Hlt.
    unfold n_next_dates_printed, MAX_PRINTED_NEXT_DIARY_ENTRIES in *.
    rewrite length_app. simpl.
    split; [done|]. split; [lia|]. split; [lia|]. split; [done|].
    split; [done|]. apply elem_of_next_dates.
    unfold next_dates. rewrite Hsplit. apply elem_of_app. right. constructor.
Qed.

Lemma min_printed_date_elem dates today m :
  min_printed_date dates today = Some m → m ∈ previous_dates dates today.
Proof.
  unfold min_printed_date, n_previous_dates_printed,
    MAX_PRINTED_PREVIOUS_DIARY_ENTRIES.
  rewrite getitem_from_end.
  destruct (previous_dates dates today) as [|x l]; [done|].
  intros Hm. apply list_elem_of_lookup. eauto.
Qed.

Lemma max_printed_date_elem dates today m :
  max_printed_date dates today = Some (Some m) → m ∈ next_dates dates today.
Proof.
  destruct (max_printed_date_returns dates today) as (result & -> & _ & Hsome).
  intros [= ->]. apply list_elem_of_lookup. eauto.
Qed.

(** X16. When both bounds exist, today lies between them. *)
Theorem printed_window_contains_today dates today lo hi :
  printed_window dates today = Some (lo, Some hi) →
  lo < today ≤ hi ∧ lo ∈ dates ∧ hi ∈ dates.
Proof.
  unfold printed_window.
  intros (m & Hmin & (result & Hmax & [= -> ->])%bind_Some)%bind_Some.
  apply min_printed_date_elem, elem_of_previous_dates in Hmin as [? ?].
  apply max_printed_date_elem, elem_of_next_dates in Hmax as [? ?].
  repeat split; (done || lia).
Qed.
End PrintedWindow.

(** ** The further properties on the scenarios *)

Section MoreScenarios.
Import Scenario.
Local Existing Instance utils.

Lemma curry_window d n name :
  name ∈ get_close_history_meal_names curry_on_new_year d n →
  name = "Chicken Curry".
Proof.
  intros (d' & Hd' & _)%elem_of_get_close_history_meal_names.
  unfold curry_on_new_year in Hd'.
  by apply lookup_singleton_Some in Hd' as [_ <-].
Defined.

Lemma not_pasta_within_five_days_behaviour_witness :
  not_pasta_within_five_days fajitas_and_chilli
    (ymd2ord 2024 1 2) curry_on_new_year
  = Some fajitas_and_chilli.
Proof.
  apply (proj1 (proj2 (not_pasta_within_five_days_behaviour
                         fajitas_and_chilli (ymd2ord 2024 1 2)
                         curry_on_new_year))).
  intros name ->%curry_window. reflexivity.
Defined.

Lemma not_fish_within_seven_days_behaviour_witness :
  not_fish_within_seven_days fajitas_and_chilli
    (ymd2ord 2024 1 2) curry_on_new_year
  = Some fajitas_and_chilli.
Proof.
  apply (proj1 (proj2 (not_fish_within_seven_days_behaviour
                         fajitas_and_chilli (ymd2ord 2024 1 2)
                         curry_on_new_year))).
  intros name ->%curry_window. reflexivity.
Defined.

Lemma not_time_consuming_on_weekend_behaviour_witness :
  not_time_consuming_on_weekend lasagne_moussaka_chilli
    (ymd2ord 2024 1 6) ∅
  = Some [("Beef Chilli", beef_chilli)].
Proof.
  apply (proj1 (not_time_consuming_on_weekend_behaviour
                  lasagne_moussaka_chilli (ymd2ord 2024 1 6) ∅)).
  - left. reflexivity.
  - split; [|reflexivity]. repeat constructor; eexists; vm_compute; reflexivity.
Defined.

Lemma rule_decides_each_candidate_alone_witness :
  ("Beef Chilli", beef_chilli) ∈ lasagne_moussaka_chilli.
Proof.
  apply (rule_decides_each_candidate_alone not_consecutive_same_protein
           fajitas_and_chilli lasagne_moussaka_chilli
           (ymd2ord 2024 1 2) curry_on_new_year
           [("Beef Chilli", beef_chilli)] lasagne_moussaka_chilli).
  - repeat constructor.
  - vm_compute. reflexivity.
  - vm_compute. reflexivity.
  - constructor.
  - repeat constructor.
Defined.

Lemma fourteen_day_survivors_pass_seven_days_witness :
  ∃ r7, not_within_seven_days fajitas_and_chilli
          (ymd2ord 2024 1 2) curry_on_new_year = Some r7
        ∧ ("Beef Chilli", beef_chilli) ∈ r7.
Proof.
  apply (fourteen_day_survivors_pass_seven_days fajitas_and_chilli
           (ymd2ord 2024 1 2) curry_on_new_year).
  - vm_compute. reflexivity.
  - repeat constructor.
  - reflexivity.
Defined.

Lemma Ingredient_init_checks_name_then_category_witness :
  Ingredient.Ingredient_init (Unit := string)
    (Ingredient.VInt 3) (Ingredient.VCategory Ingredient.MEAT)
  = Ingredient.Raise
      (Ingredient.TypeError
         "'name' argument must be a string in Ingredient init").
Proof.
  apply (proj1 (proj2 (Ingredient_init_checks_name_then_category
                         (Ingredient.VInt 3)
                         (Ingredient.VCategory Ingredient.MEAT)))).
  reflexivity.
Defined.

Lemma IngredientQuantity_init_checks_ingredient_then_unit_witness :
  Ingredient.IngredientQuantity_init (Unit := string)
    (Ingredient.VIngredients Ingredient.RICE)
    (Ingredient.VStr "GRAM") (Ingredient.VInt 200)
  = Ingredient.Raise
      (Ingredient.TypeError
         "'unit' argument must be a Unit in IngredientQuantity init").
Proof.
  apply (proj2 (proj2 (IngredientQuantity_init_checks_ingredient_then_unit
                         (Ingredient.VIngredients Ingredient.RICE)
                         (Ingredient.VStr "GRAM") (Ingredient.VInt 200))));
    reflexivity.
Defined.

Lemma IngredientQuantityCollection_init_accepts_only_quantities_witness :
  Collection.IngredientQuantityCollection_init (λ _, "<object>")
    [Collection.EQuantity rice_quantity;
     Collection.EValue (Ingredient.VStr "rice")]
  = Ingredient.Raise
      (Ingredient.TypeError
         ("<object>" +:+
          " is not an IngredientQuantity in IngredientQuantityCollection init")).
Proof.
  apply (proj2 (IngredientQuantityCollection_init_accepts_only_quantities
                  (λ _, "<object>")
                  [Collection.EQuantity rice_quantity;
                   Collection.EValue (Ingredient.VStr "rice")])
           [Collection.EQuantity rice_quantity]
           (Collection.EValue (Ingredient.VStr "rice")) []).
  - reflexivity.
  - repeat constructor.
  - reflexivity.
Defined.

Lemma Ingredients_names_distinct_witness :
  Ingredient.RICE = Ingredient.RICE.
Proof.
  apply (proj2 (Ingredients_names_distinct (Unit := string))
           Ingredient.RICE Ingredient.RICE "Rice"
           (Ingredient.VCategory Ingredient.CARBOHYDRATE)
           (Ingredient.VCategory Ingredient.CARBOHYDRATE)); reflexivity.
Defined.

Lemma min_printed_date_position_witness :
  3 ∈ [5; 1; 9; 3; 12; 20; 7] ∧ 3 < 10.
Proof.
  destruct (min_printed_date_position [5; 1; 9; 3; 12; 20; 7] 10 3)
    as (older & shown & _ & _ & _ & _ & _ & Hin & Hlt).
  - vm_compute. reflexivity.
  - by split.
Defined.

Lemma printed_window_contains_today_witness :
  (3 < 10 ≤ 20) ∧ 3 ∈ [5; 1; 9; 3; 12; 20; 7] ∧ 20 ∈ [5; 1; 9; 3; 12; 20; 7].
Proof.
  apply (printed_window_contains_today [5; 1; 9; 3; 12; 20; 7] 10).
  vm_compute. reflexivity.
Defined.
End MoreScenarios.
